(** * easy-redux: the action registration engine ([src/actionCreator.ts])

    A shallow embedding of [createAction], [createActions],
    [checkAsyncHandlers] and [isFunction], together with the fragment of
    JavaScript they rely on (truthiness, [typeof], property lookup, object
    spread and rest, own-key enumeration order), followed by the properties
    the specification states about them.

    Conventions of the embedding.
    - A JavaScript value is a term of [value].  Numbers are binary64 floats.
      Strings are sequences of characters, one character per code unit.
    - A user function is known by its identity ([fn]); what it does when it is
      called is the parameter [apply_fn] of section [Engine], a function of the
      receiver, the arguments and the state of the user's world.  Two function
      values are the same function object iff their identities are equal.
    - An object is the list of its own enumerable string-keyed data properties
      in creation order, without repeated keys.  Values are immutable
      snapshots: user-defined accessors, prototypes carrying the looked-up
      names, symbols and own properties of function objects are outside the
      model.  The code is module code, hence strict.
    - Code that can throw lives in the monad [M], which threads a state and
      keeps it when an exception is raised.  Reducers and action creators act
      on the user's world; registration acts on the reducer registry.
    - [mergeReducer] is imported from [./easy-redux], which is not part of the
      sources: it is a parameter of section [Engine]. *)

From Stdlib Require Import Bool List String Ascii NArith Floats Lia Permutation.
From Stdlib Require Import DecimalString.
Import ListNotations.

Local Open Scope string_scope.
Local Open Scope list_scope.

Set Implicit Arguments.
Set Warnings "-register-all".

(** ** JavaScript values *)

(** Identity of a function object. *)
Definition fn := nat.

Inductive value : Type :=
| VUndefined
| VNull
| VBool (b : bool)
| VNum (x : float)
| VStr (s : string)
| VFun (f : fn)
| VArr (elems : list value)
| VObj (props : list (string * value)).

(** ToBoolean. *)
Definition truthy (v : value) : bool :=
  match v with
  | VUndefined | VNull => false
  | VBool b => b
  | VNum x => negb (PrimFloat.is_zero x || PrimFloat.is_nan x)
  | VStr s => negb (String.eqb s "")
  | VFun _ | VArr _ | VObj _ => true
  end.

(** The [typeof] operator. *)
Definition typeof (v : value) : string :=
  match v with
  | VUndefined => "undefined"
  | VNull => "object"
  | VBool _ => "boolean"
  | VNum _ => "number"
  | VStr _ => "string"
  | VFun _ => "function"
  | VArr _ | VObj _ => "object"
  end.

(** [a || b]: the left operand when it is truthy, else the right one. *)
Definition js_or (a b : value) : value := if truthy a then a else b.

(** [v === s] for a string [s]. *)
Definition strict_eq_string (v : value) (s : string) : bool :=
  match v with
  | VStr t => String.eqb t s
  | _ => false
  end.

(** A parameter with a default value takes the default exactly when the
    argument is [undefined]. *)
Definition default_param (arg dflt : value) : value :=
  match arg with
  | VUndefined => dflt
  | _ => arg
  end.

(** ** Property lists *)

Module Props.

Section Generic.
Variable A : Type.

Fixpoint lookup (k : string) (l : list (string * A)) : option A :=
  match l with
  | [] => None
  | (k', v) :: t => if String.eqb k k' then Some v else lookup k t
  end.

(** [o[k] = v]: an existing property keeps its place, a new one goes last. *)
Fixpoint set (k : string) (v : A) (l : list (string * A)) : list (string * A) :=
  match l with
  | [] => [(k, v)]
  | (k', v') :: t => if String.eqb k k' then (k', v) :: t else (k', v') :: set k v t
  end.

Definition keys (l : list (string * A)) : list string := map fst l.

(** Copy the properties [src], in order, onto [dst]: the spread [{...src}]
    inside an object literal whose earlier properties are [dst]. *)
Definition assign (dst src : list (string * A)) : list (string * A) :=
  fold_left (fun acc kv => set (fst kv) (snd kv) acc) src dst.

(** Drop the properties named in [excluded]. *)
Definition without (excluded : list string) (l : list (string * A))
  : list (string * A) :=
  filter (fun kv => negb (existsb (String.eqb (fst kv)) excluded)) l.

(** An ordinary object that starts as [{}] and is filled by assigning
    function objects to it: its own properties, and whether an assignment to
    [__proto__] has made a function object its prototype (until then the
    prototype is [Object.prototype]). *)
Record assigned : Type := {
  own_of : list (string * A);
  function_prototype : bool
}.

Definition empty_object : assigned :=
  {| own_of := []; function_prototype := false |}.

(** The names an object cannot take by assignment while a function object is
    its prototype: [name] and [length] are read-only there, and [arguments]
    and [caller] are accessors of [Function.prototype] whose setter throws. *)
Definition refused_by_function : list string :=
  ["name"; "length"; "arguments"; "caller"].

(** [o[k] = f] in strict code, for a function object [f]; [None] is the
    [TypeError] of a refused assignment.  The name [__proto__] reaches the
    setter of [Object.prototype], which makes [f] the prototype of [o] and
    creates no property.  An own property is replaced.  Any other name is
    created as an own property, every inherited property of that name being a
    writable data property, but for the names a function prototype refuses. *)
Definition put (k : string) (f : A) (o : assigned) : option assigned :=
  if String.eqb k "__proto__" then
    Some {| own_of := own_of o; function_prototype := true |}
  else
    match lookup k (own_of o) with
    | Some _ =>
        Some {| own_of := set k f (own_of o);
                function_prototype := function_prototype o |}
    | None =>
        if function_prototype o && existsb (String.eqb k) refused_by_function
        then None
        else Some {| own_of := set k f (own_of o);
                     function_prototype := function_prototype o |}
    end.

End Generic.

(** Decimal digits of an array index. *)
Definition digit (c : ascii) : option N :=
  let n := N_of_ascii c in
  if (48 <=? n)%N && (n <=? 57)%N then Some (n - 48)%N else None.

Fixpoint digits (s : string) (acc : N) : option N :=
  match s with
  | EmptyString => Some acc
  | String c r =>
      match digit c with
      | Some d => digits r (acc * 10 + d)%N
      | None => None
      end
  end.

(** A key is an array index when it is the canonical decimal form of an
    integer between 0 and 2^32 - 2. *)
Definition array_index (k : string) : option N :=
  match k with
  | EmptyString => None
  | String c r =>
      if Ascii.eqb c "0"
      then match r with EmptyString => Some 0%N | _ => None end
      else match digits k 0 with
           | Some n => if (n <? 4294967295)%N then Some n else None
           | None => None
           end
  end.

Section Order.
Variable A : Type.

Fixpoint insert_by_index (i : N) (kv : string * A)
  (l : list (N * (string * A))) : list (N * (string * A)) :=
  match l with
  | [] => [(i, kv)]
  | (j, kv') :: t =>
      if (i <? j)%N then (i, kv) :: (j, kv') :: t
      else (j, kv') :: insert_by_index i kv t
  end.

Fixpoint indexed (l : list (string * A)) : list (N * (string * A)) :=
  match l with
  | [] => []
  | kv :: t =>
      match array_index (fst kv) with
      | Some i => insert_by_index i kv (indexed t)
      | None => indexed t
      end
  end.

Definition named (l : list (string * A)) : list (string * A) :=
  filter (fun kv => match array_index (fst kv) with Some _ => false | None => true end) l.

(** Own property keys are enumerated with the array indices first, in
    ascending numeric order, then the other keys in creation order. *)
Definition enumerate (l : list (string * A)) : list (string * A) :=
  map snd (indexed l) ++ named l.

End Order.

End Props.

(** The key under which element [i] of an array or a string is stored. *)
Definition index_key (i : nat) : string :=
  NilEmpty.string_of_uint (Nat.to_uint i).

Fixpoint elements_from (i : nat) (l : list value) : list (string * value) :=
  match l with
  | [] => []
  | v :: t => (index_key i, v) :: elements_from (S i) t
  end.

Fixpoint characters_from (i : nat) (s : string) : list (string * value) :=
  match s with
  | EmptyString => []
  | String c r => (index_key i, VStr (String c EmptyString)) :: characters_from (S i) r
  end.

(** ** Exceptions and the state-and-exception monad *)

Inductive exception : Type :=
| Error (message : string)
| TypeError.

Inductive result (A : Type) : Type :=
| Ok (a : A)
| Throw (e : exception).

Arguments Ok {A} a.
Arguments Throw {A} e.

Definition M (S A : Type) : Type := S -> result A * S.

Definition ret {S A : Type} (a : A) : M S A := fun s => (Ok a, s).

Definition throw {S A : Type} (e : exception) : M S A := fun s => (Throw e, s).

Definition bind {S A B : Type} (m : M S A) (k : A -> M S B) : M S B :=
  fun s =>
    match m s with
    | (Ok a, s') => k a s'
    | (Throw e, s') => (Throw e, s')
    end.

Definition lift {S A : Type} (r : result A) : M S A := fun s => (r, s).

Declare Scope js_scope.
Delimit Scope js_scope with js.
Notation "x <- m ;; k" := (bind m (fun x => k))
  (at level 61, m at next level, right associativity) : js_scope.
Notation "m ;;; k" := (bind m (fun _ => k))
  (at level 61, right associativity) : js_scope.
Local Open Scope js_scope.

(** Left-to-right fold whose step can throw: [Array.prototype.reduce] with a
    callback in [M]. *)
Fixpoint reduce {S A B : Type} (f : B -> A -> M S B) (l : list A) (acc : B) : M S B :=
  match l with
  | [] => ret acc
  | a :: t => acc' <- f acc a ;; reduce f t acc'
  end.

(** ** Objects *)

(** The own enumerable string-keyed properties of [ToObject v], in
    enumeration order; [null] and [undefined] have no object form. *)
Definition own_props (v : value) : result (list (string * value)) :=
  match v with
  | VUndefined | VNull => Throw TypeError
  | VBool _ | VNum _ | VFun _ => Ok []
  | VStr s => Ok (characters_from 0 s)
  | VArr l => Ok (elements_from 0 l)
  | VObj props => Ok (Props.enumerate props)
  end.

(** [v.k] for the property names this program reads ([action], [async],
    [storeKey], [handlers], [handler], [initialState], [onWait],
    [onSuccess], [onFail], [type], [promise], [apply] on a non-function): none
    of them is an index, [length] or a member of a built-in prototype, so
    only an object's own property can answer. *)
Definition get_prop (v : value) (k : string) : result value :=
  match v with
  | VUndefined | VNull => Throw TypeError
  | VObj props =>
      match Props.lookup k props with
      | Some x => Ok x
      | None => Ok VUndefined
      end
  | _ => Ok VUndefined
  end.

(** [Object.keys(v)] and [Object.entries(v)]. *)
Definition object_keys (v : value) : result (list string) :=
  match own_props v with
  | Ok l => Ok (Props.keys l)
  | Throw e => Throw e
  end.

Definition object_entries (v : value) : result (list (string * value)) :=
  own_props v.

(** ** The engine *)

(** [IActionOptions] after the destructuring of line 45: a field the caller
    left out is [VUndefined]. *)
Record IActionOptions : Type := {
  action : value;
  async : value;
  storeKey : value;
  handlers : value;
  handler : value;
  initialState : value
}.

(** [ICreateActionsOptions] after the destructuring of line 102. *)
Record ICreateActionsOptions : Type := {
  actions : value;
  globalInitialState : value;
  globalStoreKey : value
}.

(** Lines 41-43: the three lifecycle tags of an action name. *)
Definition WAIT (name : string) : string := "WAIT@" ++ name.
Definition SUCCESS (name : string) : string := "SUCCESS@" ++ name.
Definition FAIL (name : string) : string := "FAIL@" ++ name.

(** Line 145. *)
Definition isFunction (thing : value) : bool :=
  String.eqb (typeof thing) "function".

(** Line 130. *)
Definition errMessage (fnName : string) : string :=
  "Expected that the " ++ fnName ++ " will be a function, and will returns new state".

(** Lines 128-143. *)
Definition checkAsyncHandlers (handlers : value) : result unit :=
  match get_prop handlers "onWait", get_prop handlers "onSuccess",
        get_prop handlers "onFail" with
  | Ok onWait, Ok onSuccess, Ok onFail =>
      if negb (isFunction onWait) then Throw (Error (errMessage "onWait"))
      else if negb (isFunction onSuccess) then Throw (Error (errMessage "onSuccess"))
      else if negb (isFunction onFail) then Throw (Error (errMessage "onFail"))
      else Ok tt
  | _, _, _ => Throw TypeError
  end.

(** The messages of the errors raised by lines 49, 53, 72, 76, 88 and 104. *)
Definition initial_state_error : exception :=
  Error "Initial state should not be null or undefined".
Definition store_key_error (name : string) : exception :=
  Error ("Store key at action " ++ name ++ " not defined").
Definition async_handlers_error (name : string) : exception :=
  Error ("Expected handlers in async action " ++ name).
Definition sync_handler_error (name : string) : exception :=
  Error ("Expected that synchronous action " ++ name
         ++ " handler will be a function, and it will returns new state").
Definition promise_error (name : string) : exception :=
  Error ("Async action " ++ name ++ " should return promise property of Function type").
Definition no_actions_error : exception :=
  Error "No any action passed".

Section Engine.

(** The state of the user's world and the behaviour of the user's functions:
    [apply_fn f this args] is the call of the function object [f]. *)
Variable World : Type.
Variable apply_fn : fn -> value -> list value -> M World value.

(** [f(args)] with receiver [this]: a value that is not a function cannot be
    called. *)
Definition call (f this : value) (args : list value) : M World value :=
  match f with
  | VFun id => apply_fn id this args
  | _ => throw TypeError
  end.

(** [f.apply(thisArg, args)].  On a function this is
    [Function.prototype.apply]; on an object it is whatever the object's own
    [apply] property holds, called as a method with the two arguments. *)
Definition call_apply (f thisArg : value) (args : list value) : M World value :=
  match f with
  | VFun id => apply_fn id thisArg args
  | VObj props =>
      match Props.lookup "apply" props with
      | Some m => call m f [thisArg; VArr args]
      | None => throw TypeError
      end
  | _ => throw TypeError
  end.

Definition reducer : Type := value -> value -> M World value.
Definition creator : Type := list value -> M World value.

(** Lines 58-69: the reducer of an asynchronous action. *)
Definition asyncReducer (name : string) (handlers initialState : value) : reducer :=
  fun state action =>
    let state := default_param state initialState in
    ty <- lift (get_prop action "type") ;;
    if strict_eq_string ty (WAIT name) then
      onWait <- lift (get_prop handlers "onWait") ;;
      call onWait handlers [state; action]
    else if strict_eq_string ty (SUCCESS name) then
      onSuccess <- lift (get_prop handlers "onSuccess") ;;
      call onSuccess handlers [state; action]
    else if strict_eq_string ty (FAIL name) then
      onFail <- lift (get_prop handlers "onFail") ;;
      call onFail handlers [state; action]
    else ret state.

(** Line 78: the reducer of a synchronous action. *)
Definition syncReducer (name : string) (handler initialState : value) : reducer :=
  fun state action =>
    let state := default_param state initialState in
    ty <- lift (get_prop action "type") ;;
    if strict_eq_string ty name then call handler VUndefined [state; action]
    else ret state.

(** Lines 46-79: the guards and the choice of the reducer. *)
Definition buildReducer (name : string) (options : IActionOptions) : result reducer :=
  if negb (truthy (initialState options)) then Throw initial_state_error
  else if negb (truthy (storeKey options)) then Throw (store_key_error name)
  else if truthy (async options) && truthy (handlers options) then
    match checkAsyncHandlers (handlers options) with
    | Ok _ => Ok (asyncReducer name (handlers options) (initialState options))
    | Throw e => Throw e
    end
  else if truthy (async options) && negb (truthy (handlers options)) then
    Throw (async_handlers_error name)
  else if negb (isFunction (handler options)) then Throw (sync_handler_error name)
  else Ok (syncReducer name (handler options) (initialState options)).

(** Lines 83-98: the action creator.  Line 85 reads [promise], sets [type]
    aside and keeps the remaining own properties as the payload. *)
Definition actionCreator (name : string) (async action : value) : creator :=
  fun args =>
    built <- call_apply action VUndefined args ;;
    promise <- lift (get_prop built "promise") ;;
    own <- lift (own_props built) ;;
    let actionPayload := Props.without ["promise"; "type"] own in
    if truthy async then
      if negb (String.eqb (typeof promise) "function") then throw (promise_error name)
      else ret (VObj (Props.assign
                        [("types", VArr [VStr (WAIT name); VStr (SUCCESS name);
                                         VStr (FAIL name)]);
                         ("promise", promise)]
                        actionPayload))
    else ret (VObj (Props.assign [("type", VStr name)] actionPayload)).

(** The reducer registry of [./easy-redux] and its [mergeReducer]. *)
Variable Registry : Type.
Variable mergeReducer : value -> reducer -> M Registry unit.

(** Lines 40-99. *)
Definition createAction (name : string) (options : IActionOptions)
  : M Registry creator :=
  reducer <- lift (buildReducer name options) ;;
  mergeReducer (storeKey options) reducer ;;;
  ret (actionCreator name (async options) (action options)).

(** Lines 107-123: the options [createActions] builds for one entry. *)
Definition entryOptions (globalInitialState globalStoreKey actionOptions : value)
  : result IActionOptions :=
  match get_prop actionOptions "async", get_prop actionOptions "initialState",
        get_prop actionOptions "storeKey", get_prop actionOptions "action",
        get_prop actionOptions "handler", get_prop actionOptions "handlers" with
  | Ok optionAsync, Ok initialState, Ok storeKey, Ok action, Ok handler, Ok handlers =>
      let async := js_or optionAsync (VBool (truthy handlers)) in
      Ok {| action := action;
            async := async;
            storeKey := js_or storeKey globalStoreKey;
            handlers := handlers;
            handler := handler;
            initialState := js_or initialState globalInitialState |}
  | _, _, _, _, _, _ => Throw TypeError
  end.

(** Lines 106-124: the callback of the [reduce].  The creator is made, and
    its reducer merged, before the assignment [res[actionName] = ...]. *)
Definition registerEntry (globalInitialState globalStoreKey : value)
  (res : Props.assigned creator) (entry : string * value)
  : M Registry (Props.assigned creator) :=
  let '(actionName, actionOptions) := entry in
  opts <- lift (entryOptions globalInitialState globalStoreKey actionOptions) ;;
  created <- createAction actionName opts ;;
  match Props.put actionName created res with
  | Some res' => ret res'
  | None => throw TypeError
  end.

(** Lines 101-126.  The result object maps each action name to its creator;
    it is given by its own properties. *)
Definition createActions (options : ICreateActionsOptions)
  : M Registry (list (string * creator)) :=
  keys <- lift (object_keys (actions options)) ;;
  if negb (truthy (VArr (map VStr keys))) then throw no_actions_error
  else
    entries <- lift (object_entries (actions options)) ;;
    res <- reduce (registerEntry (globalInitialState options) (globalStoreKey options))
                  entries (Props.empty_object creator) ;;
    ret (Props.own_of res).

End Engine.

(** The options [o] as they would be without a [handlers] field. *)
Definition drop_handlers (o : IActionOptions) : IActionOptions :=
  {| action := action o;
     async := async o;
     storeKey := storeKey o;
     handlers := VUndefined;
     handler := handler o;
     initialState := initialState o |}.

(** The first of [onWait], [onSuccess], [onFail] that is not a function, as
    [checkAsyncHandlers] finds it. *)
Definition first_bad_handler (onWait onSuccess onFail : value) : option string :=
  if negb (isFunction onWait) then Some "onWait"
  else if negb (isFunction onSuccess) then Some "onSuccess"
  else if negb (isFunction onFail) then Some "onFail"
  else None.

(** The [types] array of the action object of an asynchronous action. *)
Definition lifecycle_tags (name : string) : value :=
  VArr [VStr (WAIT name); VStr (SUCCESS name); VStr (FAIL name)].

(** The own property [k] of an object, if it has one. *)
Definition own_property (v : value) (k : string) : option value :=
  match v with
  | VObj props => Props.lookup k props
  | _ => None
  end.

(** The rule "the values of an entry take precedence over the global
    defaults", read for every value the entry holds: whenever the entry has a
    [storeKey] or an [initialState] of its own, that is the one
    [createActions] registers the action with. *)
Definition entry_values_take_precedence
  (globalInitialState globalStoreKey actionOptions : value) : Prop :=
  forall o, entryOptions globalInitialState globalStoreKey actionOptions = Ok o ->
    (forall x, own_property actionOptions "storeKey" = Some x -> storeKey o = x) /\
    (forall x, own_property actionOptions "initialState" = Some x -> initialState o = x).

(** The creator [createActions] binds to the entry [e] is the one
    [createAction] returns for the name and the resolved options of [e]. *)
Definition creator_of_entry {World : Type}
  (apply_fn : fn -> value -> list value -> M World value)
  (globalInitialState globalStoreKey : value)
  (e : string * value) (c : string * creator World) : Prop :=
  fst c = fst e /\
  exists o, entryOptions globalInitialState globalStoreKey (snd e) = Ok o /\
            snd c = actionCreator apply_fn (fst e) (async o) (action o).

(** The outcome [out] is an [Error] raised in state [s]. *)
Definition raises_fatal {A S : Type} (out : result A * S) (s : S) : Prop :=
  exists message, out = (Throw (Error message), s).

(** ** A concrete world

    A world that records which user functions were called, in order, and a
    registry that records the merged reducers, in order.  The functions are
    the ones the tests of the properties use:
    0 builds a payload with a [type] and an [id];
    1 builds a payload with a function [promise] (function 9), a [type] and an [id];
    2 builds a payload whose [promise] is a string;
    3 is a synchronous handler; 4, 5 and 6 are [onWait], [onSuccess] and
    [onFail]; every other identity returns [undefined]. *)
Module Demo.

Definition world : Type := list fn.

Definition answer (f : fn) (args : list value) : value :=
  match f with
  | 0 => VObj [("type", VStr "mine"); ("id", nth 0 args VUndefined)]
  | 1 => VObj [("promise", VFun 9); ("type", VStr "mine"); ("id", nth 0 args VUndefined)]
  | 2 => VObj [("promise", VStr "not-a-fn")]
  | 3 => VStr "handled"
  | 4 => VStr "waiting"
  | 5 => VStr "succeeded"
  | 6 => VStr "failed"
  | _ => VUndefined
  end.

Definition apply_fn (f : fn) (this : value) (args : list value) : M world value :=
  fun w => (Ok (answer f args), w ++ [f]).

Definition registry : Type := list (value * reducer world).

Definition mergeReducer (storeKey : value) (r : reducer world) : M registry unit :=
  fun reg => (Ok tt, reg ++ [(storeKey, r)]).

Definition state0 : value := VObj [("count", VNum 0)].

Definition three_handlers : value :=
  VObj [("onWait", VFun 4); ("onSuccess", VFun 5); ("onFail", VFun 6)].

Definition sync_options : IActionOptions :=
  {| action := VFun 0; async := VUndefined; storeKey := VStr "K";
     handlers := VUndefined; handler := VFun 3; initialState := state0 |}.

Definition async_options : IActionOptions :=
  {| action := VFun 1; async := VBool true; storeKey := VStr "K";
     handlers := three_handlers; handler := VUndefined; initialState := state0 |}.

(** The store keys under which reducers were merged. *)
Definition merged_keys (reg : registry) : list value := map fst reg.

(** An entry that holds an empty [storeKey] of its own. *)
Definition empty_key_entry : value :=
  VObj [("storeKey", VStr ""); ("initialState", state0);
        ("handler", VFun 3); ("action", VFun 0)].

(** An entry that holds a zero [initialState] and an empty [storeKey]. *)
Definition falsy_entry : value :=
  VObj [("storeKey", VStr ""); ("initialState", VNum 0);
        ("handler", VFun 3); ("action", VFun 0)].

Definition empty_key_batch : ICreateActionsOptions :=
  {| actions := VObj [("inc", empty_key_entry)];
     globalInitialState := state0;
     globalStoreKey := VStr "K" |}.

(** A synchronous entry that relies on the defaults, and an asynchronous one
    (it has handlers and no [async] flag) with a store key of its own. *)
Definition batch : ICreateActionsOptions :=
  {| actions :=
       VObj [("a", VObj [("action", VFun 0); ("handler", VFun 3)]);
             ("b", VObj [("action", VFun 1); ("handlers", three_handlers);
                         ("storeKey", VStr "B")])];
     globalInitialState := state0;
     globalStoreKey := VStr "K" |}.

(** Options with [async] unset and a [handlers] record all the same. *)
Definition sync_with_handlers : IActionOptions :=
  {| action := VFun 0; async := VBool false; storeKey := VStr "K";
     handlers := three_handlers; handler := VFun 3; initialState := state0 |}.

End Demo.

(** ** Vocabulary of the further properties *)

(** The three handlers of [h] can be read and are functions. *)
Definition handlers_are_functions (h : value) : bool :=
  match get_prop h "onWait", get_prop h "onSuccess", get_prop h "onFail" with
  | Ok onWait, Ok onSuccess, Ok onFail =>
      isFunction onWait && isFunction onSuccess && isFunction onFail
  | _, _, _ => false
  end.

(** The options pass every guard of [createAction]. *)
Definition valid_options (o : IActionOptions) : bool :=
  truthy (initialState o) && truthy (storeKey o) &&
  (if truthy (async o)
   then truthy (handlers o) && handlers_are_functions (handlers o)
   else isFunction (handler o)).

(** The options [o] with [a] as their payload builder. *)
Definition with_action (a : value) (o : IActionOptions) : IActionOptions :=
  {| action := a;
     async := async o;
     storeKey := storeKey o;
     handlers := handlers o;
     handler := handler o;
     initialState := initialState o |}.

(** The options [o] as they would be without a [handler] field. *)
Definition drop_handler (o : IActionOptions) : IActionOptions :=
  {| action := action o;
     async := async o;
     storeKey := storeKey o;
     handlers := handlers o;
     handler := VUndefined;
     initialState := initialState o |}.

(** The three lifecycle tags of a name, as action types. *)
Definition tags_of (name : string) : list value :=
  [VStr (WAIT name); VStr (SUCCESS name); VStr (FAIL name)].

Section Batch.

Variable World : Type.
Variable apply_fn : fn -> value -> list value -> M World value.
Variable Registry : Type.
Variable mergeReducer : value -> reducer World -> M Registry unit.

(** Lines 106-125 on the entries [entries]: the [reduce] of [createActions],
    started from the empty result. *)
Definition registerEntries (globalInitialState globalStoreKey : value)
  (entries : list (string * value)) : M Registry (Props.assigned (creator World)) :=
  reduce (registerEntry apply_fn mergeReducer globalInitialState globalStoreKey)
         entries (Props.empty_object (creator World)).

End Batch.

(** Further inputs of the concrete world. *)
Module Scenarios.

(** User functions that return their first argument and record the call. *)
Definition echo_apply (f : fn) (this : value) (args : list value)
  : M Demo.world value :=
  fun w => (Ok (nth 0 args VUndefined), w ++ [f]).

(** A batch whose second entry has no [handler]. *)
Definition broken_batch : ICreateActionsOptions :=
  {| actions :=
       VObj [("a", VObj [("action", VFun 0); ("handler", VFun 3)]);
             ("b", VObj [("action", VFun 0)]);
             ("c", VObj [("action", VFun 0); ("handler", VFun 3)])];
     globalInitialState := Demo.state0;
     globalStoreKey := VStr "K" |}.

(** An entry that says [async: false] and carries handlers and a handler. *)
Definition contradictory_entry : value :=
  VObj [("async", VBool false); ("handlers", Demo.three_handlers);
        ("handler", VFun 3); ("action", VFun 1)].

(** Asynchronous options that also carry a [handler] that is no function. *)
Definition async_with_handler : IActionOptions :=
  {| action := VFun 1; async := VBool true; storeKey := VStr "K";
     handlers := Demo.three_handlers; handler := VStr "not-a-fn";
     initialState := Demo.state0 |}.

(** Handlers whose [onWait] and [onFail] are no functions. *)
Definition two_bad_handlers : value :=
  VObj [("onWait", VNum 5); ("onSuccess", VFun 5); ("onFail", VNull)].

End Scenarios.

(** * Properties *)

Unset Implicit Arguments.

(** Closes [NoDup] goals over explicit lists of keys. *)
Ltac distinct_keys := repeat constructor; simpl; intuition discriminate.

(** ** Property lists *)

Module PropsFacts.
Import Props.

Section Generic.
Variable A : Type.
Implicit Types (l : list (string * A)) (k : string).

Lemma lookup_set_same k (v : A) l : lookup k (set k v l) = Some v.
Proof.
  induction l as [|[k' v'] t IH]; simpl.
  - now rewrite String.eqb_refl.
  - destruct (String.eqb k k') eqn:E; simpl; rewrite E; auto.
Qed.

Lemma lookup_set_other k k' (v : A) l :
  k <> k' -> lookup k (set k' v l) = lookup k l.
Proof.
  intros Hne; induction l as [|[k2 v2] t IH]; simpl.
  - apply String.eqb_neq in Hne. now rewrite Hne.
  - destruct (String.eqb k' k2) eqn:E; simpl.
    + apply String.eqb_eq in E; subst k2.
      apply String.eqb_neq in Hne. now rewrite Hne.
    + now rewrite IH.
Qed.

Lemma lookup_none k l : lookup k l = None <-> ~ In k (keys l).
Proof.
  induction l as [|[k' v'] t IH]; simpl.
  - tauto.
  - destruct (String.eqb k k') eqn:E.
    + apply String.eqb_eq in E. split; [discriminate | intros H; exfalso; auto].
    + apply String.eqb_neq in E. rewrite IH. split; intros H; [intros [?|?] | ]; auto.
Qed.

Lemma lookup_in k (v : A) l : lookup k l = Some v -> In (k, v) l.
Proof.
  induction l as [|[k' v'] t IH]; simpl; [discriminate|].
  destruct (String.eqb k k') eqn:E; auto.
  apply String.eqb_eq in E; subst. intros [= ->]; auto.
Qed.

Lemma in_lookup k (v : A) l : NoDup (keys l) -> In (k, v) l -> lookup k l = Some v.
Proof.
  induction l as [|[k' v'] t IH]; simpl; [tauto|].
  intros Hnd [Heq | Hin]; inversion Hnd as [|? ? Hnotin Hnd']; subst.
  - injection Heq as -> ->. now rewrite String.eqb_refl.
  - destruct (String.eqb k k') eqn:E; auto.
    apply String.eqb_eq in E; subst k'.
    exfalso; apply Hnotin. change k with (fst (k, v)). now apply in_map.
Qed.

(** Looking a key up does not depend on the order of a well-formed list. *)
Lemma lookup_perm k l l' :
  NoDup (keys l) -> Permutation l l' -> lookup k l = lookup k l'.
Proof.
  intros Hnd Hp.
  assert (Hnd' : NoDup (keys l'))
    by (eapply Permutation_NoDup; [apply Permutation_map; eassumption | assumption]).
  destruct (lookup k l) as [v|] eqn:E.
  - symmetry. apply in_lookup; auto.
    eapply Permutation_in; [eassumption | now apply lookup_in].
  - destruct (lookup k l') as [v'|] eqn:E'; auto.
    apply lookup_in in E'. apply Permutation_sym in Hp.
    eapply Permutation_in in E'; [|eassumption].
    apply in_lookup in E'; congruence.
Qed.

Lemma lookup_assign k (dst src : list (string * A)) :
  NoDup (keys src) ->
  lookup k (assign dst src) =
  match lookup k src with Some v => Some v | None => lookup k dst end.
Proof.
  unfold assign. revert dst.
  induction src as [|[k' v'] t IH]; intros dst Hnd; simpl; auto.
  inversion Hnd as [|? ? Hnotin Hnd']; subst.
  rewrite IH by assumption.
  destruct (String.eqb k k') eqn:E.
  - apply String.eqb_eq in E; subst k'.
    apply lookup_none in Hnotin. rewrite Hnotin. apply lookup_set_same.
  - apply String.eqb_neq in E. now rewrite lookup_set_other.
Qed.

Lemma lookup_without k (ex : list string) l :
  lookup k (without ex l) =
  if existsb (String.eqb k) ex then None else lookup k l.
Proof.
  unfold without. induction l as [|[k' v'] t IH]; simpl.
  - now destruct (existsb _ ex).
  - destruct (existsb (String.eqb k') ex) eqn:Ek'; simpl.
    + destruct (String.eqb k k') eqn:E; [|exact IH].
      apply String.eqb_eq in E; subst k'. now rewrite IH, Ek'.
    + destruct (String.eqb k k') eqn:E; [|exact IH].
      apply String.eqb_eq in E; subst k'. now rewrite Ek'.
Qed.

Lemma keys_without_incl (ex : list string) l k :
  In k (keys (without ex l)) -> In k (keys l).
Proof.
  unfold keys, without. rewrite !in_map_iff.
  intros [kv [<- Hin]]. apply filter_In in Hin. exists kv; tauto.
Qed.

Lemma NoDup_without (ex : list string) l :
  NoDup (keys l) -> NoDup (keys (without ex l)).
Proof.
  induction l as [|[k v] t IH]; simpl; intros Hnd.
  - constructor.
  - inversion Hnd as [|? ? Hnotin Hnd']; subst.
    unfold without in *; simpl.
    destruct (negb _); simpl; auto.
    constructor; auto. intros Hin. apply Hnotin.
    now apply (keys_without_incl ex).
Qed.

Lemma insert_by_index_perm i (kv : string * A) L :
  Permutation (map snd (insert_by_index i kv L)) (kv :: map snd L).
Proof.
  induction L as [|[j kv'] t IH]; simpl; auto.
  destruct (i <? j)%N; simpl; auto.
  rewrite IH. apply perm_swap.
Qed.

(** Enumeration only reorders the properties. *)
Lemma enumerate_perm l : Permutation (enumerate l) l.
Proof.
  unfold enumerate. induction l as [|kv t IH]; simpl; auto.
  destruct (array_index (fst kv)); simpl.
  - rewrite insert_by_index_perm. simpl. now constructor.
  - apply Permutation_sym, Permutation_cons_app, Permutation_sym, IH.
Qed.

Lemma NoDup_enumerate l : NoDup (keys l) -> NoDup (keys (enumerate l)).
Proof.
  intros Hnd. eapply Permutation_NoDup; [|exact Hnd].
  apply Permutation_map, Permutation_sym, enumerate_perm.
Qed.

Lemma lookup_enumerate k l : NoDup (keys l) -> lookup k (enumerate l) = lookup k l.
Proof.
  intros Hnd. symmetry. apply lookup_perm; auto.
  apply Permutation_sym, enumerate_perm.
Qed.

(** A fresh key is appended. *)
Lemma set_fresh k (v : A) l : ~ In k (keys l) -> set k v l = l ++ [(k, v)].
Proof.
  induction l as [|[k' v'] t IH]; simpl; auto.
  intros Hnotin. destruct (String.eqb k k') eqn:E.
  - apply String.eqb_eq in E. exfalso; auto.
  - rewrite IH; auto.
Qed.

End Generic.

End PropsFacts.

(** The own properties of a well-formed object are its properties, up to the
    order of enumeration. *)
Lemma own_props_object props own :
  own_props (VObj props) = Ok own ->
  NoDup (Props.keys props) ->
  NoDup (Props.keys own) /\
  forall k, Props.lookup k own = Props.lookup k props.
Proof.
  simpl. intros [= <-] Hnd. split.
  - now apply PropsFacts.NoDup_enumerate.
  - intros k. now apply PropsFacts.lookup_enumerate.
Qed.

(** ** Registration *)

Section EngineFacts.

Variable World : Type.
Variable apply_fn : fn -> value -> list value -> M World value.
Variable Registry : Type.
Variable mergeReducer : value -> reducer World -> M Registry unit.

(** Registration stops at the first guard that fails, before the registry is
    touched. *)
Lemma createAction_throw name o e reg :
  buildReducer apply_fn name o = Throw e ->
  createAction apply_fn mergeReducer name o reg = (Throw e, reg).
Proof. intros H. unfold createAction, bind, lift. now rewrite H. Qed.

(** A registration that passes the guards merges the reducer it built under
    the store key, then returns the creator. *)
Lemma createAction_ok name o r reg :
  buildReducer apply_fn name o = Ok r ->
  createAction apply_fn mergeReducer name o reg =
  match mergeReducer (storeKey o) r reg with
  | (Ok _, reg') => (Ok (actionCreator apply_fn name (async o) (action o)), reg')
  | (Throw e, reg') => (Throw e, reg')
  end.
Proof. intros H. unfold createAction, bind, lift. now rewrite H. Qed.

Lemma createAction_inv name o c reg reg' :
  createAction apply_fn mergeReducer name o reg = (Ok c, reg') ->
  c = actionCreator apply_fn name (async o) (action o) /\
  exists r, buildReducer apply_fn name o = Ok r /\
            mergeReducer (storeKey o) r reg = (Ok tt, reg').
Proof.
  destruct (buildReducer apply_fn name o) as [r|e] eqn:Hb.
  - rewrite createAction_ok with (r := r) by exact Hb.
    destruct (mergeReducer (storeKey o) r reg) as [[[]|e] reg2] eqn:Hm;
      intros [= <- <-]; eauto.
  - rewrite createAction_throw with (e := e) by exact Hb. discriminate.
Qed.

Lemma checkAsyncHandlers_bad h onWait onSuccess onFail which :
  get_prop h "onWait" = Ok onWait ->
  get_prop h "onSuccess" = Ok onSuccess ->
  get_prop h "onFail" = Ok onFail ->
  first_bad_handler onWait onSuccess onFail = Some which ->
  checkAsyncHandlers h = Throw (Error (errMessage which)).
Proof.
  unfold checkAsyncHandlers, first_bad_handler. intros -> -> ->.
  destruct (negb (isFunction onWait)); [now intros [= <-]|].
  destruct (negb (isFunction onSuccess)); [now intros [= <-]|].
  destruct (negb (isFunction onFail)); [now intros [= <-]|discriminate].
Qed.

(** C8: the initial-state guard of [createAction] is a truthiness test.  The
    values 0, the empty string, [false] and NaN are falsy, and a registration
    whose [initialState] is falsy raises "Initial state should not be null or
    undefined" and leaves the registry as it was. *)
Theorem initial_state_guard_rejects_falsy name o reg :
  Forall (fun v => truthy v = false)
         [VNum 0%float; VStr ""; VBool false; VNum PrimFloat.nan] /\
  (truthy (initialState o) = false ->
   createAction apply_fn mergeReducer name o reg = (Throw initial_state_error, reg)).
Proof.
  split.
  - repeat constructor.
  - intros H. apply createAction_throw. unfold buildReducer. now rewrite H.
Qed.

(** C6: [createAction] raises an error and merges nothing when
    [initialState] is omitted; when [storeKey] is missing or empty; when
    [async] is set and there are no handlers; when [async] is set and one of
    the three handlers is not a function; when [async] is not set and
    [handler] is not a function.  Once the earlier guards are passed the error
    is the one of that case: it names the action, or the first handler that is
    not a function. *)
Theorem createAction_guards name o reg :
  let run := createAction apply_fn mergeReducer name o reg in
  (initialState o = VUndefined -> run = (Throw initial_state_error, reg)) /\
  (storeKey o = VUndefined \/ storeKey o = VStr "" ->
   raises_fatal run reg /\
   (truthy (initialState o) = true -> run = (Throw (store_key_error name), reg))) /\
  (truthy (async o) = true -> truthy (handlers o) = false ->
   raises_fatal run reg /\
   (truthy (initialState o) = true -> truthy (storeKey o) = true ->
    run = (Throw (async_handlers_error name), reg))) /\
  (truthy (async o) = true -> truthy (handlers o) = true ->
   forall onWait onSuccess onFail which,
     get_prop (handlers o) "onWait" = Ok onWait ->
     get_prop (handlers o) "onSuccess" = Ok onSuccess ->
     get_prop (handlers o) "onFail" = Ok onFail ->
     first_bad_handler onWait onSuccess onFail = Some which ->
     raises_fatal run reg /\
     (truthy (initialState o) = true -> truthy (storeKey o) = true ->
      run = (Throw (Error (errMessage which)), reg))) /\
  (truthy (async o) = false -> isFunction (handler o) = false ->
   raises_fatal run reg /\
   (truthy (initialState o) = true -> truthy (storeKey o) = true ->
    run = (Throw (sync_handler_error name), reg))).
Proof.
  intros run; subst run. unfold raises_fatal.
  split; [|split; [|split; [|split]]].
  - intros H. apply createAction_throw. unfold buildReducer. now rewrite H.
  - intros H.
    assert (Hk : truthy (storeKey o) = false) by (destruct H as [-> | ->]; reflexivity).
    split.
    + destruct (truthy (initialState o)) eqn:Hi;
        eexists; apply createAction_throw; unfold buildReducer; rewrite Hi; simpl;
        [rewrite Hk|]; reflexivity.
    + intros Hi. apply createAction_throw. unfold buildReducer. now rewrite Hi, Hk.
  - intros Ha Hh. split.
    + destruct (truthy (initialState o)) eqn:Hi; destruct (truthy (storeKey o)) eqn:Hk;
        eexists; apply createAction_throw; unfold buildReducer;
        rewrite Hi; simpl; try rewrite Hk; simpl; try rewrite Ha, Hh; reflexivity.
    + intros Hi Hk. apply createAction_throw. unfold buildReducer.
      now rewrite Hi, Hk, Ha, Hh.
  - intros Ha Hh onWait onSuccess onFail which H1 H2 H3 Hbad.
    pose proof (checkAsyncHandlers_bad _ _ _ _ _ H1 H2 H3 Hbad) as Hc.
    split.
    + destruct (truthy (initialState o)) eqn:Hi; destruct (truthy (storeKey o)) eqn:Hk;
        eexists; apply createAction_throw; unfold buildReducer;
        rewrite Hi; simpl; try rewrite Hk; simpl; try rewrite Ha, Hh, Hc; reflexivity.
    + intros Hi Hk. apply createAction_throw. unfold buildReducer.
      now rewrite Hi, Hk, Ha, Hh, Hc.
  - intros Ha Hf. split.
    + destruct (truthy (initialState o)) eqn:Hi; destruct (truthy (storeKey o)) eqn:Hk;
        eexists; apply createAction_throw; unfold buildReducer;
        rewrite Hi; simpl; try rewrite Hk; simpl; try rewrite Ha, Hf; reflexivity.
    + intros Hi Hk. apply createAction_throw. unfold buildReducer.
      now rewrite Hi, Hk, Ha, Hf.
Qed.

(** ** Reducers *)

Lemma strict_eq_string_true v s : strict_eq_string v s = true <-> v = VStr s.
Proof.
  destruct v; simpl; try (split; [discriminate | intros [=]]).
  rewrite String.eqb_eq. split; [now intros -> | now intros [= ->]].
Qed.

Lemma strict_eq_string_false v s : strict_eq_string v s = false <-> v <> VStr s.
Proof.
  rewrite <- strict_eq_string_true. destruct (strict_eq_string v s); split; congruence.
Qed.

(** The three lifecycle tags of a name are pairwise distinct. *)
Lemma tags_distinct name :
  WAIT name <> SUCCESS name /\ WAIT name <> FAIL name /\ SUCCESS name <> FAIL name.
Proof. unfold WAIT, SUCCESS, FAIL; simpl; repeat split; discriminate. Qed.

Lemma isFunction_inv v : isFunction v = true -> exists f, v = VFun f.
Proof. destruct v; simpl; try discriminate; eauto. Qed.

Lemma checkAsyncHandlers_ok h u :
  checkAsyncHandlers h = Ok u ->
  exists onWait onSuccess onFail,
    get_prop h "onWait" = Ok (VFun onWait) /\
    get_prop h "onSuccess" = Ok (VFun onSuccess) /\
    get_prop h "onFail" = Ok (VFun onFail).
Proof.
  unfold checkAsyncHandlers.
  destruct (get_prop h "onWait") as [a|]; [|discriminate].
  destruct (get_prop h "onSuccess") as [b|]; [|discriminate].
  destruct (get_prop h "onFail") as [c|]; [|discriminate].
  destruct (isFunction a) eqn:Ha; [|discriminate].
  destruct (isFunction b) eqn:Hb; [|discriminate].
  destruct (isFunction c) eqn:Hc; [|discriminate].
  apply isFunction_inv in Ha, Hb, Hc.
  destruct Ha as [fa ->], Hb as [fb ->], Hc as [fc ->]. eauto 7.
Qed.

(** The reducer of a registration whose [async] is set is [asyncReducer]. *)
Lemma buildReducer_async name o r :
  buildReducer apply_fn name o = Ok r -> truthy (async o) = true ->
  r = asyncReducer apply_fn name (handlers o) (initialState o) /\
  exists u, checkAsyncHandlers (handlers o) = Ok u.
Proof.
  unfold buildReducer. intros H Ha. rewrite Ha in H.
  destruct (truthy (initialState o)); [|discriminate].
  destruct (truthy (storeKey o)); [|discriminate].
  destruct (truthy (handlers o)); [|discriminate].
  simpl in H. destruct (checkAsyncHandlers (handlers o)) as [u|]; [|discriminate].
  injection H as <-. eauto.
Qed.

(** The reducer of a registration whose [async] is not set is [syncReducer]. *)
Lemma buildReducer_sync name o r :
  buildReducer apply_fn name o = Ok r -> truthy (async o) = false ->
  r = syncReducer apply_fn name (handler o) (initialState o) /\
  exists h, handler o = VFun h.
Proof.
  unfold buildReducer. intros H Ha. rewrite Ha in H.
  destruct (truthy (initialState o)); [|discriminate].
  destruct (truthy (storeKey o)); [|discriminate].
  simpl in H. destruct (isFunction (handler o)) eqn:Hf; [|discriminate].
  injection H as <-. split; auto. now apply isFunction_inv.
Qed.

(** C4: the reducer that a valid asynchronous registration of [name] merges
    under the store key.  Its state is the initial state when the argument is
    [undefined], and the argument otherwise.  On an action whose type is the
    string [WAIT@name], [SUCCESS@name] or [FAIL@name] it is one call of
    [onWait], [onSuccess] or [onFail] on the state and the action, nothing
    else, and returns what the handler returns; on any other type it returns
    the state and calls nothing. *)
Theorem async_reducer_dispatch name o r :
  buildReducer apply_fn name o = Ok r ->
  truthy (async o) = true ->
  (forall reg,
     createAction apply_fn mergeReducer name o reg =
     match mergeReducer (storeKey o) r reg with
     | (Ok _, reg') => (Ok (actionCreator apply_fn name (async o) (action o)), reg')
     | (Throw e, reg') => (Throw e, reg')
     end) /\
  exists onWait onSuccess onFail,
    get_prop (handlers o) "onWait" = Ok (VFun onWait) /\
    get_prop (handlers o) "onSuccess" = Ok (VFun onSuccess) /\
    get_prop (handlers o) "onFail" = Ok (VFun onFail) /\
    forall state action ty w,
      get_prop action "type" = Ok ty ->
      let state' := match state with
                    | VUndefined => initialState o
                    | _ => state
                    end in
      (ty = VStr ("WAIT@" ++ name) ->
       r state action w = apply_fn onWait (handlers o) [state'; action] w) /\
      (ty = VStr ("SUCCESS@" ++ name) ->
       r state action w = apply_fn onSuccess (handlers o) [state'; action] w) /\
      (ty = VStr ("FAIL@" ++ name) ->
       r state action w = apply_fn onFail (handlers o) [state'; action] w) /\
      (ty <> VStr ("WAIT@" ++ name) -> ty <> VStr ("SUCCESS@" ++ name) ->
       ty <> VStr ("FAIL@" ++ name) ->
       r state action w = (Ok state', w)).
Proof.
  intros Hb Ha. split; [intros reg; now apply createAction_ok|].
  destruct (buildReducer_async _ _ _ Hb Ha) as [-> [u Hc]].
  destruct (checkAsyncHandlers_ok _ _ Hc) as (fw & fs & ff & Hw & Hs & Hf).
  exists fw, fs, ff. repeat (split; [assumption|]).
  intros state action ty w Hty state'.
  assert (Hst : default_param state (initialState o) = state') by reflexivity.
  change ("WAIT@" ++ name)%string with (WAIT name).
  change ("SUCCESS@" ++ name)%string with (SUCCESS name).
  change ("FAIL@" ++ name)%string with (FAIL name).
  destruct (tags_distinct name) as (Hws & Hwf & Hsf).
  unfold asyncReducer, bind, lift. rewrite Hty, Hst.
  split; [|split; [|split]].
  - intros ->. rewrite (proj2 (strict_eq_string_true _ _) eq_refl), Hw. reflexivity.
  - intros ->.
    assert (E : strict_eq_string (VStr (SUCCESS name)) (WAIT name) = false)
      by (apply strict_eq_string_false; congruence).
    rewrite E, (proj2 (strict_eq_string_true _ _) eq_refl), Hs. reflexivity.
  - intros ->.
    assert (E1 : strict_eq_string (VStr (FAIL name)) (WAIT name) = false)
      by (apply strict_eq_string_false; congruence).
    assert (E2 : strict_eq_string (VStr (FAIL name)) (SUCCESS name) = false)
      by (apply strict_eq_string_false; congruence).
    rewrite E1, E2, (proj2 (strict_eq_string_true _ _) eq_refl), Hf. reflexivity.
  - intros N1 N2 N3.
    apply strict_eq_string_false in N1, N2, N3. now rewrite N1, N2, N3.
Qed.

(** C5: the reducer that a valid synchronous registration of [name] merges
    under the store key.  Its state is the initial state when the argument is
    [undefined], and the argument otherwise.  On an action whose type is
    exactly the string [name] it is one call of the handler on the state and
    the action; on any other type it returns the state and calls nothing. *)
Theorem sync_reducer_dispatch name o r :
  buildReducer apply_fn name o = Ok r ->
  truthy (async o) = false ->
  (forall reg,
     createAction apply_fn mergeReducer name o reg =
     match mergeReducer (storeKey o) r reg with
     | (Ok _, reg') => (Ok (actionCreator apply_fn name (async o) (action o)), reg')
     | (Throw e, reg') => (Throw e, reg')
     end) /\
  exists h,
    handler o = VFun h /\
    forall state action ty w,
      get_prop action "type" = Ok ty ->
      let state' := match state with
                    | VUndefined => initialState o
                    | _ => state
                    end in
      (ty = VStr name -> r state action w = apply_fn h VUndefined [state'; action] w) /\
      (ty <> VStr name -> r state action w = (Ok state', w)).
Proof.
  intros Hb Ha. split; [intros reg; now apply createAction_ok|].
  destruct (buildReducer_sync _ _ _ Hb Ha) as [-> [h Hh]].
  exists h. split; [assumption|].
  intros state action ty w Hty state'.
  assert (Hst : default_param state (initialState o) = state') by reflexivity.
  unfold syncReducer, bind, lift. rewrite Hty, Hh, Hst. split.
  - intros ->. now rewrite (proj2 (strict_eq_string_true _ _) eq_refl).
  - intros N. apply strict_eq_string_false in N. now rewrite N.
Qed.

(** C10: a direct registration whose [async] is not set takes the synchronous
    path whatever [handlers] holds.  It behaves as the same registration
    without [handlers]; [handler] must be a function, else the synchronous
    handler error is raised; and the reducer it builds calls nothing but
    [handler]. *)
Theorem handlers_ignored_when_not_async name o reg :
  truthy (async o) = false ->
  buildReducer apply_fn name o = buildReducer apply_fn name (drop_handlers o) /\
  createAction apply_fn mergeReducer name o reg =
    createAction apply_fn mergeReducer name (drop_handlers o) reg /\
  (truthy (initialState o) = true -> truthy (storeKey o) = true ->
   (isFunction (handler o) = false ->
    createAction apply_fn mergeReducer name o reg = (Throw (sync_handler_error name), reg)) /\
   (isFunction (handler o) = true ->
    buildReducer apply_fn name o =
      Ok (syncReducer apply_fn name (handler o) (initialState o)))) /\
  (forall r, buildReducer apply_fn name o = Ok r ->
   forall state action w,
     let state' := default_param state (initialState o) in
     r state action w = (Throw TypeError, w) \/
     r state action w = (Ok state', w) \/
     exists h, handler o = VFun h /\
               r state action w = apply_fn h VUndefined [state'; action] w).
Proof.
  intros Ha.
  assert (Hsame : buildReducer apply_fn name o = buildReducer apply_fn name (drop_handlers o)).
  { unfold buildReducer, drop_handlers; simpl. rewrite Ha. simpl. reflexivity. }
  split; [exact Hsame|]. split; [|split].
  - unfold createAction. rewrite <- Hsame. reflexivity.
  - intros Hi Hk. split; intros Hf.
    + apply createAction_throw. unfold buildReducer. now rewrite Hi, Hk, Ha, Hf.
    + unfold buildReducer. now rewrite Hi, Hk, Ha, Hf.
  - intros r Hb state action w state'.
    destruct (buildReducer_sync _ _ _ Hb Ha) as [-> [h Hh]].
    unfold syncReducer, bind, lift. fold state'.
    destruct (get_prop action "type") as [ty|e] eqn:Hty.
    + destruct (strict_eq_string ty name).
      * right; right. exists h. rewrite Hh. auto.
      * right; left. reflexivity.
    + left. destruct action; simpl in Hty; try discriminate;
        try (destruct (Props.lookup "type" props); discriminate);
        injection Hty as <-; reflexivity.
Qed.

(** ** Action creators *)

Lemma excluded_other k :
  k <> "promise" -> k <> "type" ->
  existsb (String.eqb k) ["promise"; "type"] = false.
Proof.
  intros H1 H2. apply String.eqb_neq in H1, H2. simpl. now rewrite H1, H2.
Qed.

(** What line 85 makes of the value the builder returned. *)
Lemma actionCreator_run name asyncFlag builder args w built own promise w' :
  apply_fn builder VUndefined args w = (Ok built, w') ->
  own_props built = Ok own ->
  get_prop built "promise" = Ok promise ->
  actionCreator apply_fn name asyncFlag (VFun builder) args w =
  if truthy asyncFlag then
    if negb (isFunction promise) then (Throw (promise_error name), w')
    else (Ok (VObj (Props.assign [("types", lifecycle_tags name); ("promise", promise)]
                                 (Props.without ["promise"; "type"] own))), w')
  else (Ok (VObj (Props.assign [("type", VStr name)]
                               (Props.without ["promise"; "type"] own))), w').
Proof.
  intros Hcall Hown Hp.
  unfold actionCreator, bind, lift, call_apply. rewrite Hcall, Hp, Hown.
  unfold isFunction, lifecycle_tags.
  destruct (truthy asyncFlag); [|reflexivity].
  destruct (negb (typeof promise =? "function")%string); reflexivity.
Qed.

(** C3: the creator returned by a valid synchronous registration of [name].
    Called with [args], it calls the payload builder once with those
    arguments and returns the object [{type: name, ...payload}], where the
    payload is what the builder returned without [promise] and [type]: the
    result's [type] is [name] whatever the builder returned there, it has no
    [promise], and every other property is the builder's.  ([own] is the list
    of the own properties of the value the builder returned; a well-formed
    value has no repeated key.) *)
Theorem sync_creator_result name o c reg reg' :
  createAction apply_fn mergeReducer name o reg = (Ok c, reg') ->
  truthy (async o) = false ->
  forall builder args w built own w',
    action o = VFun builder ->
    apply_fn builder VUndefined args w = (Ok built, w') ->
    own_props built = Ok own ->
    NoDup (Props.keys own) ->
    exists obj,
      c args w = (Ok (VObj obj), w') /\
      obj = Props.assign [("type", VStr name)] (Props.without ["promise"; "type"] own) /\
      Props.lookup "type" obj = Some (VStr name) /\
      Props.lookup "promise" obj = None /\
      forall k, k <> "type" -> k <> "promise" ->
                Props.lookup k obj = Props.lookup k own.
Proof.
  intros Hc Ha builder args w built own w' Hact Hcall Hown Hnd.
  apply createAction_inv in Hc. destruct Hc as [-> _].
  assert (Hp : exists promise, get_prop built "promise" = Ok promise).
  { destruct built; simpl in *; try discriminate; eauto.
    destruct (Props.lookup "promise" props); eauto. }
  destruct Hp as [promise Hp].
  rewrite Hact, (actionCreator_run name _ _ _ _ _ _ _ _ Hcall Hown Hp), Ha.
  eexists; split; [reflexivity|]; split; [reflexivity|].
  pose proof (PropsFacts.NoDup_without _ ["promise"; "type"] _ Hnd) as Hnd'.
  repeat split.
  - rewrite PropsFacts.lookup_assign, PropsFacts.lookup_without by assumption.
    reflexivity.
  - rewrite PropsFacts.lookup_assign, PropsFacts.lookup_without by assumption.
    reflexivity.
  - intros k H1 H2.
    rewrite PropsFacts.lookup_assign, PropsFacts.lookup_without by assumption.
    rewrite excluded_other by assumption.
    destruct (Props.lookup k own); auto.
    simpl. apply String.eqb_neq in H1. now rewrite H1.
Qed.

(** C2: the creator returned by a valid asynchronous registration of [name].
    Called with [args], it calls the payload builder once.  When the
    [promise] the builder returned is a function, the result is the object
    [{types: [WAIT@name, SUCCESS@name, FAIL@name], promise, ...payload}]: its
    [promise] is that very function, it has no [type], every property of the
    payload is the builder's, and [types] holds the three tags unless the
    payload carries a [types] of its own, which the spread then writes over
    them.  When [promise] is absent or is not a function, the creator raises
    the error that names the action.  ([own] is the list of the own properties
    of the value the builder returned; a well-formed value has no repeated
    key.) *)
Theorem async_creator_result name o c reg reg' :
  createAction apply_fn mergeReducer name o reg = (Ok c, reg') ->
  truthy (async o) = true ->
  forall builder args w built own promise w',
    action o = VFun builder ->
    apply_fn builder VUndefined args w = (Ok built, w') ->
    own_props built = Ok own ->
    NoDup (Props.keys own) ->
    get_prop built "promise" = Ok promise ->
    (forall p, promise = VFun p ->
       exists obj,
         c args w = (Ok (VObj obj), w') /\
         obj = Props.assign [("types", lifecycle_tags name); ("promise", VFun p)]
                            (Props.without ["promise"; "type"] own) /\
         Props.lookup "promise" obj = Some (VFun p) /\
         Props.lookup "type" obj = None /\
         Props.lookup "types" obj =
           Some (match Props.lookup "types" own with
                 | Some v => v
                 | None => lifecycle_tags name
                 end) /\
         forall k, k <> "types" -> k <> "promise" -> k <> "type" ->
                   Props.lookup k obj = Props.lookup k own) /\
    (isFunction promise = false ->
     c args w = (Throw (promise_error name), w')).
Proof.
  intros Hc Ha builder args w built own promise w' Hact Hcall Hown Hnd Hp.
  apply createAction_inv in Hc. destruct Hc as [-> _].
  rewrite Hact, (actionCreator_run name _ _ _ _ _ _ _ _ Hcall Hown Hp), Ha.
  pose proof (PropsFacts.NoDup_without _ ["promise"; "type"] _ Hnd) as Hnd'.
  split.
  - intros p ->. simpl negb.
    eexists; split; [reflexivity|]; split; [reflexivity|].
    repeat split.
    + rewrite PropsFacts.lookup_assign, PropsFacts.lookup_without by assumption.
      reflexivity.
    + rewrite PropsFacts.lookup_assign, PropsFacts.lookup_without by assumption.
      reflexivity.
    + rewrite PropsFacts.lookup_assign, PropsFacts.lookup_without by assumption.
      simpl existsb. cbv iota. destruct (Props.lookup "types" own); reflexivity.
    + intros k H1 H2 H3.
      rewrite PropsFacts.lookup_assign, PropsFacts.lookup_without by assumption.
      rewrite excluded_other by assumption.
      destruct (Props.lookup k own); auto.
      simpl. apply String.eqb_neq in H1, H2. now rewrite H1, H2.
  - intros Hf. now rewrite Hf.
Qed.

(** ** Batches *)

(** Assigning under a fresh name other than [__proto__], while the prototype
    is still [Object.prototype], appends the property. *)
Lemma put_fresh (A : Type) k (c : A) (acc : Props.assigned A) :
  k <> "__proto__" ->
  Props.function_prototype acc = false ->
  ~ In k (Props.keys (Props.own_of acc)) ->
  Props.put k c acc =
  Some {| Props.own_of := Props.own_of acc ++ [(k, c)];
          Props.function_prototype := false |}.
Proof.
  intros Hk Hp Hfresh. unfold Props.put.
  apply String.eqb_neq in Hk. rewrite Hk.
  apply PropsFacts.lookup_none in Hfresh. rewrite Hfresh, Hp. simpl.
  rewrite PropsFacts.set_fresh by (now apply PropsFacts.lookup_none).
  reflexivity.
Qed.

(** The [reduce] of line 106 over entries none of which is named
    [__proto__]. *)
Lemma reduce_entries gi gk entries :
  NoDup (Props.keys entries) ->
  ~ In "__proto__" (Props.keys entries) ->
  forall res0 reg res reg',
  Props.function_prototype res0 = false ->
  (forall k, In k (Props.keys entries) -> ~ In k (Props.keys (Props.own_of res0))) ->
  reduce (registerEntry apply_fn mergeReducer gi gk) entries res0 reg = (Ok res, reg') ->
  exists created,
    Props.own_of res = Props.own_of res0 ++ created /\
    Props.function_prototype res = false /\
    Forall2 (creator_of_entry apply_fn gi gk) entries created.
Proof.
  induction entries as [|[k v] t IH];
    intros Hnd Hproto res0 reg res reg' Hp Hfresh Hrun.
  - simpl in Hrun. injection Hrun as <- <-. exists []. now rewrite app_nil_r.
  - inversion Hnd as [|? ? Hnotin Hnd']; subst.
    simpl in Hrun. unfold bind at 1 in Hrun. unfold registerEntry at 1 in Hrun.
    unfold bind at 1 in Hrun. unfold lift at 1 in Hrun.
    destruct (entryOptions gi gk v) as [o|e] eqn:Ho; [|discriminate].
    unfold bind at 1 in Hrun.
    destruct (createAction apply_fn mergeReducer k o reg) as [[c|e] reg1] eqn:Hc;
      [|discriminate].
    rewrite put_fresh in Hrun;
      [| intros ->; apply Hproto; simpl; auto
       | exact Hp
       | apply Hfresh; simpl; auto].
    unfold ret at 1 in Hrun.
    apply IH in Hrun; auto.
    + destruct Hrun as (created & Hown & Hp' & HF). simpl in Hown.
      exists ((k, c) :: created). split; [now rewrite Hown, <- app_assoc|].
      split; [exact Hp'|].
      constructor; auto. split; auto.
      exists o. split; auto. simpl.
      now apply createAction_inv in Hc.
    + intros Hin. apply Hproto. simpl. auto.
    + intros k' Hin. simpl. unfold Props.keys. rewrite map_app, in_app_iff. simpl.
      intros [Hin' | [<- | []]].
      * apply (Hfresh k'); simpl; auto.
      * auto.
Qed.

Lemma Forall2_creator_keys gi gk entries (created : list (string * creator World)) :
  Forall2 (creator_of_entry apply_fn gi gk) entries created ->
  Props.keys created = Props.keys entries.
Proof.
  induction 1 as [|e c es cs [Hk _] _ IH]; simpl; congruence.
Qed.

Lemma Forall2_creator_lookup gi gk entries (created : list (string * creator World)) :
  Forall2 (creator_of_entry apply_fn gi gk) entries created ->
  NoDup (Props.keys entries) ->
  forall k v, In (k, v) entries ->
  exists o, entryOptions gi gk v = Ok o /\
            Props.lookup k created = Some (actionCreator apply_fn k (async o) (action o)).
Proof.
  induction 1 as [|[k0 v0] [k1 c] es cs [Hk (o & Ho & Hc)] HF IH];
    intros Hnd k v Hin; [destruct Hin|].
  simpl in Hk, Ho, Hc; subst k1 c.
  inversion Hnd as [|? ? Hnotin Hnd']; subst.
  destruct Hin as [[= <- <-] | Hin].
  - exists o. simpl. now rewrite String.eqb_refl.
  - destruct (IH Hnd' k v Hin) as (o' & Ho' & Hl).
    exists o'. split; auto. simpl.
    destruct (String.eqb k k0) eqn:E; auto.
    apply String.eqb_eq in E; subst k0.
    exfalso; apply Hnotin. change k with (fst (k, v)). now apply in_map.
Qed.

(** When every entry passes the guards and the registry accepts every merge,
    the whole batch is registered. *)
Lemma reduce_entries_total gi gk entries :
  NoDup (Props.keys entries) ->
  ~ In "__proto__" (Props.keys entries) ->
  (forall k r reg0, exists reg1, mergeReducer k r reg0 = (Ok tt, reg1)) ->
  (forall k v, In (k, v) entries ->
     exists o r, entryOptions gi gk v = Ok o /\ buildReducer apply_fn k o = Ok r) ->
  forall res0 reg,
  Props.function_prototype res0 = false ->
  (forall k, In k (Props.keys entries) -> ~ In k (Props.keys (Props.own_of res0))) ->
  exists res reg',
    reduce (registerEntry apply_fn mergeReducer gi gk) entries res0 reg = (Ok res, reg').
Proof.
  intros Hnd Hproto Hmerge.
  induction entries as [|[k v] t IH]; intros Hvalid res0 reg Hp Hfresh.
  - simpl. unfold ret. eauto.
  - inversion Hnd as [|? ? Hnotin Hnd']; subst.
    destruct (Hvalid k v (or_introl eq_refl)) as (o & r & Ho & Hb).
    destruct (Hmerge (storeKey o) r reg) as [reg1 Hm].
    simpl. unfold bind at 1. unfold registerEntry at 1.
    unfold bind at 1. unfold lift at 1. rewrite Ho.
    unfold bind at 1.
    rewrite createAction_ok with (r := r) by exact Hb. rewrite Hm.
    rewrite put_fresh;
      [| intros ->; apply Hproto; simpl; auto
       | exact Hp
       | apply Hfresh; simpl; auto].
    unfold ret at 1.
    apply IH; auto.
    + intros Hin. apply Hproto. simpl. auto.
    + intros k' v' Hin. apply Hvalid. now right.
    + intros k' Hin. simpl. unfold Props.keys. rewrite map_app, in_app_iff. simpl.
      intros [Hin' | [<- | []]].
      * apply (Hfresh k'); simpl; auto.
      * auto.
Qed.

(** C1: the guard of line 103 tests [Object.keys(actions)], an array, and an
    array is truthy even when it is empty: on an empty [actions] object
    [createActions] raises nothing and returns the empty object, leaving the
    registry as it was. *)
Theorem createActions_empty_returns_empty gi gk reg :
  createActions apply_fn mergeReducer
    {| actions := VObj []; globalInitialState := gi; globalStoreKey := gk |} reg
  = (Ok [], reg).
Proof. reflexivity. Qed.

Lemma truthy_js_or a b : truthy (js_or a b) = truthy a || truthy b.
Proof. unfold js_or. destruct (truthy a) eqn:E; simpl; auto. Qed.

(** [createActions] on a value whose entries are [entries]. *)
Lemma createActions_run options entries reg :
  object_entries (actions options) = Ok entries ->
  createActions apply_fn mergeReducer options reg =
  match reduce (registerEntry apply_fn mergeReducer
                  (globalInitialState options) (globalStoreKey options))
               entries (Props.empty_object (creator World)) reg with
  | (Ok res, reg') => (Ok (Props.own_of res), reg')
  | (Throw e, reg') => (Throw e, reg')
  end.
Proof.
  intros He. unfold createActions, object_keys, object_entries.
  unfold object_entries in He. rewrite He.
  unfold bind at 1. unfold lift at 1.
  change (negb (truthy (VArr (map VStr (Props.keys entries))))) with false.
  cbv iota. unfold bind at 1. unfold lift at 1. unfold bind at 1.
  destruct (reduce _ entries _ reg) as [[res|e] reg']; reflexivity.
Qed.

(** C7, as the code has it: for an [actions] value with entries [entries],
    none of them named [__proto__], each entry is resolved on its own.  Its
    [async] is truthy iff its own [async] flag or its [handlers] is truthy.
    Its [initialState] and [storeKey] are the entry's own when that value is
    truthy, and the global default when the entry omits the field or holds a
    falsy value there.  When [createActions] returns, the result has the keys
    of the input, in the same order, and binds each key to the creator
    [createAction] returns for that entry's name and resolved options; and it
    does return when every entry passes the guards of [createAction] and the
    registry accepts every merge. *)
Theorem createActions_result options entries :
  object_entries (actions options) = Ok entries ->
  NoDup (Props.keys entries) ->
  ~ In "__proto__" (Props.keys entries) ->
  let gi := globalInitialState options in
  let gk := globalStoreKey options in
  (forall v a i s hs o,
     get_prop v "async" = Ok a ->
     get_prop v "handlers" = Ok hs ->
     get_prop v "initialState" = Ok i ->
     get_prop v "storeKey" = Ok s ->
     entryOptions gi gk v = Ok o ->
     truthy (async o) = truthy a || truthy hs /\
     initialState o = (if truthy i then i else gi) /\
     storeKey o = (if truthy s then s else gk) /\
     (i = VUndefined -> initialState o = gi) /\
     (s = VUndefined -> storeKey o = gk)) /\
  (forall reg res reg',
     createActions apply_fn mergeReducer options reg = (Ok res, reg') ->
     Props.keys res = Props.keys entries /\
     Forall2 (creator_of_entry apply_fn gi gk) entries res /\
     forall k v, In (k, v) entries ->
       exists o, entryOptions gi gk v = Ok o /\
                 Props.lookup k res =
                   Some (actionCreator apply_fn k (async o) (action o))) /\
  ((forall k r reg0, exists reg1, mergeReducer k r reg0 = (Ok tt, reg1)) ->
   (forall k v, In (k, v) entries ->
      exists o r, entryOptions gi gk v = Ok o /\ buildReducer apply_fn k o = Ok r) ->
   forall reg, exists res reg',
     createActions apply_fn mergeReducer options reg = (Ok res, reg')).
Proof.
  intros Hentries Hnd Hproto gi gk. split; [|split].
  - intros v a i s hs o Ha Hhs Hi Hs Ho.
    unfold entryOptions in Ho. rewrite Ha, Hhs, Hi, Hs in Ho.
    destruct (get_prop v "action"); [|discriminate].
    destruct (get_prop v "handler"); [|discriminate].
    injection Ho as <-. simpl.
    rewrite truthy_js_or. simpl. unfold js_or.
    repeat split; auto; now intros ->.
  - intros reg res reg' Hrun.
    rewrite (createActions_run options entries reg Hentries) in Hrun.
    destruct (reduce _ entries _ reg) as [[acc|e] reg1] eqn:Hred; [|discriminate].
    injection Hrun as <- <-.
    apply reduce_entries in Hred; auto.
    destruct Hred as (created & Hown & _ & HF). simpl in Hown. rewrite Hown.
    split; [now apply Forall2_creator_keys with (gi := gi) (gk := gk)|].
    split; [assumption|].
    now apply Forall2_creator_lookup.
  - intros Hmerge Hvalid reg.
    rewrite (createActions_run options entries reg Hentries).
    destruct (reduce_entries_total gi gk entries Hnd Hproto Hmerge Hvalid
                (Props.empty_object (creator World)) reg eq_refl)
      as (res & reg' & Hred); [intros ? _ []|].
    unfold gi, gk in Hred. rewrite Hred. eauto.
Qed.

Lemma checkAsyncHandlers_error h e :
  checkAsyncHandlers h = Throw e ->
  e = TypeError \/ exists which, e = Error (errMessage which).
Proof.
  unfold checkAsyncHandlers.
  destruct (get_prop h "onWait"); [|intros [= <-]; auto].
  destruct (get_prop h "onSuccess"); [|intros [= <-]; auto].
  destruct (get_prop h "onFail"); [|intros [= <-]; auto].
  repeat (destruct (negb _); [intros [= <-]; eauto|]).
  discriminate.
Qed.

(** Once the store key is truthy the store-key error is not raised. *)
Lemma buildReducer_not_store_key_error name o :
  truthy (storeKey o) = true ->
  buildReducer apply_fn name o <> Throw (store_key_error name).
Proof.
  intros Hk. unfold buildReducer. rewrite Hk. simpl.
  destruct (truthy (initialState o)); simpl; [|discriminate].
  destruct (truthy (async o)); simpl.
  - destruct (truthy (handlers o)); simpl; [|discriminate].
    destruct (checkAsyncHandlers (handlers o)) as [u|e] eqn:Hc; [discriminate|].
    apply checkAsyncHandlers_error in Hc. destruct Hc as [-> | [which ->]]; discriminate.
  - destruct (negb _); discriminate.
Qed.

(** Once the initial state is truthy the initial-state error is not raised. *)
Lemma buildReducer_not_initial_state_error name o :
  truthy (initialState o) = true ->
  buildReducer apply_fn name o <> Throw initial_state_error.
Proof.
  intros Hi. unfold buildReducer. rewrite Hi. simpl.
  destruct (truthy (storeKey o)); simpl; [|discriminate].
  destruct (truthy (async o)); simpl.
  - destruct (truthy (handlers o)); simpl; [|discriminate].
    destruct (checkAsyncHandlers (handlers o)) as [u|e] eqn:Hc; [discriminate|].
    apply checkAsyncHandlers_error in Hc. destruct Hc as [-> | [which ->]]; discriminate.
  - destruct (negb _); discriminate.
Qed.

(** C9: the fall-back of [createActions] is a truthiness test.  An entry
    whose own [storeKey] is falsy (the empty string, say) is registered under
    the global store key, and with a truthy global the store-key guard of
    [createAction] does not fire; an entry whose own [initialState] is falsy
    is registered with the global initial state, and with a truthy global the
    initial-state guard does not fire. *)
Theorem falsy_entry_values_fall_back gi gk v o name :
  entryOptions gi gk v = Ok o ->
  forall s i,
    get_prop v "storeKey" = Ok s ->
    get_prop v "initialState" = Ok i ->
    truthy (VStr "") = false /\
    (truthy s = false ->
     storeKey o = gk /\
     (truthy gk = true ->
      buildReducer apply_fn name o <> Throw (store_key_error name) /\
      forall reg r, buildReducer apply_fn name o = Ok r ->
        createAction apply_fn mergeReducer name o reg =
        match mergeReducer gk r reg with
        | (Ok _, reg') => (Ok (actionCreator apply_fn name (async o) (action o)), reg')
        | (Throw e, reg') => (Throw e, reg')
        end)) /\
    (truthy i = false ->
     initialState o = gi /\
     (truthy gi = true ->
      buildReducer apply_fn name o <> Throw initial_state_error)).
Proof.
  intros Ho s i Hs Hi.
  unfold entryOptions in Ho. rewrite Hs, Hi in Ho.
  destruct (get_prop v "async"); [|discriminate].
  destruct (get_prop v "action"); [|discriminate].
  destruct (get_prop v "handler"); [|discriminate].
  destruct (get_prop v "handlers") as [hs|]; [|discriminate].
  injection Ho as <-. split; [reflexivity|]. split.
  - intros Hf.
    assert (Hsk : js_or s gk = gk) by (unfold js_or; now rewrite Hf).
    split; [exact Hsk|].
    intros Hgk. split.
    + apply buildReducer_not_store_key_error. simpl. now rewrite Hsk.
    + intros reg r Hb. rewrite createAction_ok with (r := r) by exact Hb.
      simpl. now rewrite Hsk.
  - intros Hf.
    assert (Hin : js_or i gi = gi) by (unfold js_or; now rewrite Hf).
    split; [exact Hin|].
    intros Hgi. apply buildReducer_not_initial_state_error. simpl. now rewrite Hin.
Qed.

End EngineFacts.

(** ** The properties at work in the concrete world *)

Lemma initial_state_guard_rejects_falsy_witness :
  truthy (VNum PrimFloat.nan) = false /\
  createAction Demo.apply_fn Demo.mergeReducer "inc"
    {| action := VFun 0; async := VUndefined; storeKey := VStr "K";
       handlers := VUndefined; handler := VFun 3;
       initialState := VNum PrimFloat.nan |} []
  = (Throw initial_state_error, []).
Proof.
  split; [reflexivity|].
  apply (proj2 (initial_state_guard_rejects_falsy
                  Demo.world Demo.apply_fn Demo.registry Demo.mergeReducer "inc" _ [])).
  reflexivity.
Defined.

Lemma createAction_guards_witness :
  let run o := createAction Demo.apply_fn Demo.mergeReducer "inc" o [] in
  run {| action := VFun 0; async := VUndefined; storeKey := VStr "K";
         handlers := VUndefined; handler := VFun 3; initialState := VUndefined |}
  = (Throw initial_state_error, []) /\
  run {| action := VFun 0; async := VUndefined; storeKey := VStr "";
         handlers := VUndefined; handler := VFun 3; initialState := Demo.state0 |}
  = (Throw (store_key_error "inc"), []) /\
  run {| action := VFun 1; async := VBool true; storeKey := VStr "K";
         handlers := VUndefined; handler := VUndefined; initialState := Demo.state0 |}
  = (Throw (async_handlers_error "inc"), []) /\
  run {| action := VFun 1; async := VBool true; storeKey := VStr "K";
         handlers := VObj [("onWait", VNum 5); ("onSuccess", VFun 5); ("onFail", VFun 6)];
         handler := VUndefined; initialState := Demo.state0 |}
  = (Throw (Error (errMessage "onWait")), []) /\
  run {| action := VFun 0; async := VBool false; storeKey := VStr "K";
         handlers := VUndefined; handler := VStr "not-a-fn"; initialState := Demo.state0 |}
  = (Throw (sync_handler_error "inc"), []).
Proof.
  intros run; subst run; cbv beta.
  split; [|split; [|split; [|split]]].
  - apply (proj1 (createAction_guards
                    Demo.world Demo.apply_fn Demo.registry Demo.mergeReducer "inc" _ [])).
    reflexivity.
  - apply (proj1 (proj2 (createAction_guards
                    Demo.world Demo.apply_fn Demo.registry Demo.mergeReducer "inc" _ []))).
    + right; reflexivity.
    + reflexivity.
  - apply (proj1 (proj2 (proj2 (createAction_guards
                    Demo.world Demo.apply_fn Demo.registry Demo.mergeReducer "inc" _ []))));
      reflexivity.
  - apply (proj1 (proj2 (proj2 (proj2 (createAction_guards
                    Demo.world Demo.apply_fn Demo.registry Demo.mergeReducer "inc" _ [])))))
      with (onWait := VNum 5) (onSuccess := VFun 5) (onFail := VFun 6) (which := "onWait");
      reflexivity.
  - apply (proj2 (proj2 (proj2 (proj2 (createAction_guards
                    Demo.world Demo.apply_fn Demo.registry Demo.mergeReducer "inc" _ [])))));
      reflexivity.
Defined.

Lemma async_reducer_dispatch_witness :
  let r := asyncReducer Scenarios.echo_apply "load" Demo.three_handlers Demo.state0 in
  let action ty := VObj [("type", VStr ty); ("id", VStr "seven")] in
  buildReducer Scenarios.echo_apply "load" Demo.async_options = Ok r /\
  truthy (async Demo.async_options) = true /\
  r VUndefined (action "WAIT@load") [] = (Ok Demo.state0, [4]) /\
  r (VStr "busy") (action "WAIT@load") [] = (Ok (VStr "busy"), [4]) /\
  r VNull (action "SUCCESS@load") [] = (Ok VNull, [5]) /\
  r VUndefined (action "FAIL@load") [] = (Ok Demo.state0, [6]) /\
  r VUndefined (action "load") [] = (Ok Demo.state0, []) /\
  r (VStr "busy") (action "WAIT@other") [] = (Ok (VStr "busy"), []).
Proof.
  intros r action. split; [reflexivity|]. split; [reflexivity|].
  destruct (async_reducer_dispatch
              Demo.world Scenarios.echo_apply Demo.registry Demo.mergeReducer
              "load" Demo.async_options r eq_refl eq_refl)
    as [_ (fw & fs & ff & Hw & Hs & Hf & H)].
  simpl in Hw, Hs, Hf. injection Hw as <-. injection Hs as <-. injection Hf as <-.
  refine (conj _ (conj _ (conj _ (conj _ (conj _ _))))).
  - destruct (H VUndefined (action "WAIT@load") (VStr "WAIT@load") [] eq_refl)
      as (HW & _).
    rewrite (HW eq_refl). reflexivity.
  - destruct (H (VStr "busy") (action "WAIT@load") (VStr "WAIT@load") [] eq_refl)
      as (HW & _).
    rewrite (HW eq_refl). reflexivity.
  - destruct (H VNull (action "SUCCESS@load") (VStr "SUCCESS@load") [] eq_refl)
      as (_ & HS & _).
    rewrite (HS eq_refl). reflexivity.
  - destruct (H VUndefined (action "FAIL@load") (VStr "FAIL@load") [] eq_refl)
      as (_ & _ & HF & _).
    rewrite (HF eq_refl). reflexivity.
  - destruct (H VUndefined (action "load") (VStr "load") [] eq_refl)
      as (_ & _ & _ & HO).
    rewrite HO; [reflexivity | discriminate | discriminate | discriminate].
  - destruct (H (VStr "busy") (action "WAIT@other") (VStr "WAIT@other") [] eq_refl)
      as (_ & _ & _ & HO).
    rewrite HO; [reflexivity | discriminate | discriminate | discriminate].
Defined.

Lemma sync_reducer_dispatch_witness :
  let r := syncReducer Scenarios.echo_apply "inc" (VFun 3) Demo.state0 in
  let action ty := VObj [("type", VStr ty); ("id", VStr "seven")] in
  buildReducer Scenarios.echo_apply "inc" Demo.sync_options = Ok r /\
  truthy (async Demo.sync_options) = false /\
  r VUndefined (action "inc") [] = (Ok Demo.state0, [3]) /\
  r (VStr "busy") (action "inc") [] = (Ok (VStr "busy"), [3]) /\
  r VUndefined (action "WAIT@inc") [] = (Ok Demo.state0, []) /\
  r VNull (action "Inc") [] = (Ok VNull, []).
Proof.
  intros r action. split; [reflexivity|]. split; [reflexivity|].
  destruct (sync_reducer_dispatch
              Demo.world Scenarios.echo_apply Demo.registry Demo.mergeReducer
              "inc" Demo.sync_options r eq_refl eq_refl)
    as [_ (h & Hh & H)].
  simpl in Hh. injection Hh as <-.
  refine (conj _ (conj _ (conj _ _))).
  - destruct (H VUndefined (action "inc") (VStr "inc") [] eq_refl) as (HS & _).
    rewrite (HS eq_refl). reflexivity.
  - destruct (H (VStr "busy") (action "inc") (VStr "inc") [] eq_refl) as (HS & _).
    rewrite (HS eq_refl). reflexivity.
  - destruct (H VUndefined (action "WAIT@inc") (VStr "WAIT@inc") [] eq_refl)
      as (_ & HO).
    rewrite HO; [reflexivity | discriminate].
  - destruct (H VNull (action "Inc") (VStr "Inc") [] eq_refl) as (_ & HO).
    rewrite HO; [reflexivity | discriminate].
Defined.

Lemma handlers_ignored_when_not_async_witness :
  truthy (async Demo.sync_with_handlers) = false /\
  createAction Demo.apply_fn Demo.mergeReducer "inc" Demo.sync_with_handlers [] =
  createAction Demo.apply_fn Demo.mergeReducer "inc"
    (drop_handlers Demo.sync_with_handlers) [] /\
  buildReducer Demo.apply_fn "inc" Demo.sync_with_handlers =
  Ok (syncReducer Demo.apply_fn "inc" (VFun 3) Demo.state0).
Proof.
  split; [reflexivity|].
  destruct (handlers_ignored_when_not_async
              Demo.world Demo.apply_fn Demo.registry Demo.mergeReducer
              "inc" Demo.sync_with_handlers [] eq_refl)
    as (_ & Hsame & Hpath & _).
  split; [exact Hsame|].
  exact (proj2 (Hpath eq_refl eq_refl) eq_refl).
Defined.

Lemma sync_creator_result_witness :
  truthy (async Demo.sync_options) = false /\
  exists obj,
    actionCreator Demo.apply_fn "inc" VUndefined (VFun 0) [VStr "seven"] []
    = (Ok (VObj obj), [0]) /\
    obj = [("type", VStr "inc"); ("id", VStr "seven")].
Proof.
  split; [reflexivity|].
  destruct (sync_creator_result
              Demo.world Demo.apply_fn Demo.registry Demo.mergeReducer
              "inc" Demo.sync_options
              (actionCreator Demo.apply_fn "inc" VUndefined (VFun 0)) []
              [(VStr "K", syncReducer Demo.apply_fn "inc" (VFun 3) Demo.state0)]
              eq_refl eq_refl
              0 [VStr "seven"] []
              (VObj [("type", VStr "mine"); ("id", VStr "seven")])
              [("type", VStr "mine"); ("id", VStr "seven")] [0]
              eq_refl eq_refl eq_refl)
    as (obj & Hrun & Hobj & _).
  - distinct_keys.
  - exists obj. split; [exact Hrun|]. rewrite Hobj. reflexivity.
Defined.

Lemma async_creator_result_witness :
  truthy (async Demo.async_options) = true /\
  (exists obj,
     actionCreator Demo.apply_fn "load" (VBool true) (VFun 1) [VStr "seven"] []
     = (Ok (VObj obj), [1]) /\
     obj = [("types", VArr [VStr "WAIT@load"; VStr "SUCCESS@load"; VStr "FAIL@load"]);
            ("promise", VFun 9); ("id", VStr "seven")]) /\
  actionCreator Demo.apply_fn "load" (VBool true) (VFun 2) [] []
  = (Throw (promise_error "load"), [2]).
Proof.
  split; [reflexivity|]. split.
  - destruct (async_creator_result
                Demo.world Demo.apply_fn Demo.registry Demo.mergeReducer
                "load" Demo.async_options
                (actionCreator Demo.apply_fn "load" (VBool true) (VFun 1)) []
                [(VStr "K", asyncReducer Demo.apply_fn "load" Demo.three_handlers Demo.state0)]
                eq_refl eq_refl
                1 [VStr "seven"] []
                (VObj [("promise", VFun 9); ("type", VStr "mine"); ("id", VStr "seven")])
                [("promise", VFun 9); ("type", VStr "mine"); ("id", VStr "seven")]
                (VFun 9) [1]
                eq_refl eq_refl eq_refl)
      as [Hfun _]; [| reflexivity |].
    + distinct_keys.
    + destruct (Hfun 9 eq_refl) as (obj & Hrun & Hobj & _).
      exists obj. split; [exact Hrun|]. rewrite Hobj. reflexivity.
  - destruct (async_creator_result
                Demo.world Demo.apply_fn Demo.registry Demo.mergeReducer
                "load"
                {| action := VFun 2; async := VBool true; storeKey := VStr "K";
                   handlers := Demo.three_handlers; handler := VUndefined;
                   initialState := Demo.state0 |}
                (actionCreator Demo.apply_fn "load" (VBool true) (VFun 2)) []
                [(VStr "K", asyncReducer Demo.apply_fn "load" Demo.three_handlers Demo.state0)]
                eq_refl eq_refl
                2 [] []
                (VObj [("promise", VStr "not-a-fn")])
                [("promise", VStr "not-a-fn")]
                (VStr "not-a-fn") [2]
                eq_refl eq_refl eq_refl)
      as [_ Hnot]; [| reflexivity |].
    + distinct_keys.
    + exact (Hnot eq_refl).
Defined.

Lemma falsy_entry_values_fall_back_witness :
  exists o,
    entryOptions Demo.state0 (VStr "K") Demo.falsy_entry = Ok o /\
    storeKey o = VStr "K" /\
    initialState o = Demo.state0 /\
    buildReducer Demo.apply_fn "inc" o <> Throw (store_key_error "inc") /\
    buildReducer Demo.apply_fn "inc" o <> Throw initial_state_error.
Proof.
  eexists. split; [reflexivity|].
  destruct (falsy_entry_values_fall_back
              Demo.world Demo.apply_fn Demo.registry Demo.mergeReducer
              Demo.state0 (VStr "K") Demo.falsy_entry _ "inc" eq_refl
              (VStr "") (VNum 0) eq_refl eq_refl)
    as (_ & Hkey & Hinit).
  destruct (Hkey eq_refl) as [Hk Hguard].
  destruct (Hinit eq_refl) as [Hi Hguard'].
  split; [exact Hk|]. split; [exact Hi|].
  split; [exact (proj1 (Hguard eq_refl)) | exact (Hguard' eq_refl)].
Defined.

Lemma createActions_result_witness :
  exists res reg',
    createActions Demo.apply_fn Demo.mergeReducer Demo.batch [] = (Ok res, reg') /\
    Props.keys res = ["a"; "b"] /\
    Demo.merged_keys reg' = [VStr "K"; VStr "B"] /\
    Props.lookup "b" res = Some (actionCreator Demo.apply_fn "b" (VBool true) (VFun 1)).
Proof.
  eexists. eexists. split; [reflexivity|].
  destruct (createActions_result
              Demo.world Demo.apply_fn Demo.registry Demo.mergeReducer
              Demo.batch
              [("a", VObj [("action", VFun 0); ("handler", VFun 3)]);
               ("b", VObj [("action", VFun 1); ("handlers", Demo.three_handlers);
                           ("storeKey", VStr "B")])]
              eq_refl)
    as (_ & Hres & _).
  - distinct_keys.
  - simpl. intuition discriminate.
  - destruct (Hres [] _ _ eq_refl) as (Hkeys & _ & Hlookup).
    split; [exact Hkeys|]. split; [reflexivity|].
    destruct (Hlookup "b" _ (or_intror (or_introl eq_refl))) as (o & Ho & Hl).
    simpl in Ho. injection Ho as <-. exact Hl.
Defined.

(** C7 as it is stated fails on an entry whose own [storeKey] is the empty
    string: the entry has a [storeKey], yet the action is registered under the
    global store key and no error is raised. *)
Lemma per_entry_precedence_counterexample :
  own_property Demo.empty_key_entry "storeKey" = Some (VStr "") /\
  ~ entry_values_take_precedence Demo.state0 (VStr "K") Demo.empty_key_entry /\
  exists res reg',
    createActions Demo.apply_fn Demo.mergeReducer Demo.empty_key_batch []
    = (Ok res, reg') /\
    Demo.merged_keys reg' = [VStr "K"].
Proof.
  split; [reflexivity|]. split.
  - intros H.
    destruct (H _ eq_refl) as [Hkey _].
    specialize (Hkey (VStr "") eq_refl). discriminate Hkey.
  - eexists. eexists. split; reflexivity.
Qed.

(** * Further properties of the engine *)

Section FurtherFacts.

Variable World : Type.
Variable apply_fn : fn -> value -> list value -> M World value.
Variable Registry : Type.
Variable mergeReducer : value -> reducer World -> M Registry unit.

(** Only [null] and [undefined] refuse a property read, and both are falsy. *)
Lemma get_prop_of_truthy h k : truthy h = true -> exists v, get_prop h k = Ok v.
Proof.
  destruct h; simpl; try discriminate; eauto.
  destruct (Props.lookup k props); eauto.
Qed.

Lemma get_prop_nullish v k :
  v = VUndefined \/ v = VNull -> get_prop v k = Throw TypeError.
Proof. now intros [-> | ->]. Qed.

(** ** The handler validator *)

(** X1: [checkAsyncHandlers] accepts a handlers value exactly when its
    [onWait], [onSuccess] and [onFail] are all functions.  It tests them in
    that order and reports the first that is not one, so a later handler is
    only named when the earlier ones are functions. *)
Theorem checkAsyncHandlers_decides h onWait onSuccess onFail :
  get_prop h "onWait" = Ok onWait ->
  get_prop h "onSuccess" = Ok onSuccess ->
  get_prop h "onFail" = Ok onFail ->
  (checkAsyncHandlers h = Ok tt <->
   isFunction onWait = true /\ isFunction onSuccess = true /\ isFunction onFail = true) /\
  (isFunction onWait = false ->
   checkAsyncHandlers h = Throw (Error (errMessage "onWait"))) /\
  (isFunction onWait = true -> isFunction onSuccess = false ->
   checkAsyncHandlers h = Throw (Error (errMessage "onSuccess"))) /\
  (isFunction onWait = true -> isFunction onSuccess = true ->
   isFunction onFail = false ->
   checkAsyncHandlers h = Throw (Error (errMessage "onFail"))).
Proof.
  intros Hw Hs Hf. unfold checkAsyncHandlers. rewrite Hw, Hs, Hf.
  destruct (isFunction onWait), (isFunction onSuccess), (isFunction onFail);
    simpl; repeat split; intros; try reflexivity; try discriminate;
    repeat match goal with H : _ /\ _ |- _ => destruct H end; discriminate.
Qed.

(** ** Registration *)

Lemma handlers_are_functions_check h :
  truthy h = true ->
  (handlers_are_functions h = true -> checkAsyncHandlers h = Ok tt) /\
  (handlers_are_functions h = false ->
   exists message, checkAsyncHandlers h = Throw (Error message)).
Proof.
  intros Ht.
  destruct (get_prop_of_truthy h "onWait" Ht) as [a Ha].
  destruct (get_prop_of_truthy h "onSuccess" Ht) as [b Hb].
  destruct (get_prop_of_truthy h "onFail" Ht) as [c Hc].
  unfold handlers_are_functions, checkAsyncHandlers. rewrite Ha, Hb, Hc.
  destruct (isFunction a), (isFunction b), (isFunction c); simpl;
    split; intros; try discriminate; eauto.
Qed.

(** X2: [valid_options] decides registration.  Options that pass build a
    reducer, and [createAction] then does one merge, under the store key, and
    returns the creator unless the merge itself fails.  Options that do not
    pass make [createAction] raise an [Error] with a message (never a
    [TypeError]) before the registry is touched. *)
Theorem registration_decided_by_valid_options name o :
  (valid_options o = true ->
   exists r,
     buildReducer apply_fn name o = Ok r /\
     forall reg,
       createAction apply_fn mergeReducer name o reg =
       match mergeReducer (storeKey o) r reg with
       | (Ok _, reg') => (Ok (actionCreator apply_fn name (async o) (action o)), reg')
       | (Throw e, reg') => (Throw e, reg')
       end) /\
  (valid_options o = false ->
   exists message,
     buildReducer apply_fn name o = Throw (Error message) /\
     forall reg,
       createAction apply_fn mergeReducer name o reg = (Throw (Error message), reg)).
Proof.
  assert (Hcases :
    (valid_options o = true -> exists r, buildReducer apply_fn name o = Ok r) /\
    (valid_options o = false ->
     exists message, buildReducer apply_fn name o = Throw (Error message))).
  { unfold valid_options, buildReducer.
    destruct (truthy (initialState o)); simpl;
      [|split; [discriminate | unfold initial_state_error; eauto]].
    destruct (truthy (storeKey o)); simpl;
      [|split; [discriminate | unfold store_key_error; eauto]].
    destruct (truthy (async o)); simpl.
    - destruct (truthy (handlers o)) eqn:Hh; simpl;
        [|split; [discriminate | unfold async_handlers_error; eauto]].
      destruct (handlers_are_functions_check (handlers o) Hh) as [Hok Hbad].
      split; intros Hv.
      + rewrite (Hok Hv). eauto.
      + destruct (Hbad Hv) as [message ->]. eauto.
    - destruct (isFunction (handler o)); simpl;
        split; try discriminate; unfold sync_handler_error; eauto. }
  destruct Hcases as [Hok Hbad]. split; intros Hv.
  - destruct (Hok Hv) as [r Hr]. exists r. split; [exact Hr|].
    intros reg. now apply createAction_ok.
  - destruct (Hbad Hv) as [message Hm]. exists message. split; [exact Hm|].
    intros reg. now apply createAction_throw.
Qed.

(** X3: registration never looks at [action].  Registering with another
    payload builder succeeds or fails alike and leaves the registry alike;
    only the creator differs.  A creator whose [action] is neither a function
    nor an object with an [apply] property raises a [TypeError] at every call
    and calls nothing. *)
Theorem action_is_checked_at_call_time name o a :
  (forall reg,
     createAction apply_fn mergeReducer name (with_action a o) reg =
     match createAction apply_fn mergeReducer name o reg with
     | (Ok _, reg') => (Ok (actionCreator apply_fn name (async o) a), reg')
     | (Throw e, reg') => (Throw e, reg')
     end) /\
  (isFunction a = false -> own_property a "apply" = None ->
   forall args w,
     actionCreator apply_fn name (async o) a args w = (Throw TypeError, w)).
Proof.
  split.
  - intros reg. unfold createAction, bind, lift.
    change (buildReducer apply_fn name (with_action a o))
      with (buildReducer apply_fn name o).
    destruct (buildReducer apply_fn name o) as [r|e]; [|reflexivity].
    change (storeKey (with_action a o)) with (storeKey o).
    destruct (mergeReducer (storeKey o) r reg) as [[u|e] reg']; reflexivity.
  - intros Hf Hap args w. unfold actionCreator, bind, call_apply.
    destruct a; simpl in *; try discriminate; try reflexivity.
    now rewrite Hap.
Qed.

(** ** Action creators *)

(** X4: what the creator does when the payload builder fails it.  An
    exception of the builder comes out of the creator as it is.  A builder
    that returns [null] or [undefined] makes the creator raise a [TypeError],
    in asynchronous mode too, where the error about [promise] is not
    reached.  Either way the world is as the builder left it. *)
Theorem creator_needs_an_object name asyncFlag builder args w w' :
  (forall e,
     apply_fn builder VUndefined args w = (Throw e, w') ->
     actionCreator apply_fn name asyncFlag (VFun builder) args w = (Throw e, w')) /\
  (forall built,
     apply_fn builder VUndefined args w = (Ok built, w') ->
     built = VUndefined \/ built = VNull ->
     actionCreator apply_fn name asyncFlag (VFun builder) args w = (Throw TypeError, w')).
Proof.
  split.
  - intros e Hcall. unfold actionCreator, bind, call_apply. now rewrite Hcall.
  - intros built Hcall Hnull. unfold actionCreator, bind, call_apply, lift.
    rewrite Hcall. now destruct Hnull as [-> | ->].
Qed.

(** ** Reducers *)

(** X5: every reducer a registration builds raises a [TypeError] on an action
    that is [null] or [undefined], whatever the state, and calls no handler. *)
Theorem reducers_need_an_action name o r :
  buildReducer apply_fn name o = Ok r ->
  forall state action w,
    action = VUndefined \/ action = VNull ->
    r state action w = (Throw TypeError, w).
Proof.
  intros Hb state action w Hnull.
  destruct (truthy (async o)) eqn:Ha.
  - destruct (buildReducer_async World apply_fn name o r Hb Ha) as [-> _].
    unfold asyncReducer, bind, lift. now rewrite (get_prop_nullish action "type" Hnull).
  - destruct (buildReducer_sync World apply_fn name o r Hb Ha) as [-> _].
    unfold syncReducer, bind, lift. now rewrite (get_prop_nullish action "type" Hnull).
Qed.

(** X6: for every reducer a registration builds, leaving the state out is the
    same as passing the initial state: on every action the two calls do the
    same thing. *)
Theorem undefined_state_is_initial_state name o r :
  buildReducer apply_fn name o = Ok r ->
  forall action w,
    r VUndefined action w = r (initialState o) action w.
Proof.
  intros Hb action w.
  assert (Hd : default_param (initialState o) (initialState o) = initialState o)
    by (destruct (initialState o); reflexivity).
  destruct (truthy (async o)) eqn:Ha.
  - destruct (buildReducer_async World apply_fn name o r Hb Ha) as [-> _].
    unfold asyncReducer. rewrite Hd. reflexivity.
  - destruct (buildReducer_sync World apply_fn name o r Hb Ha) as [-> _].
    unfold syncReducer. rewrite Hd. reflexivity.
Qed.

(** The tag of one name is the same tag of no other name, and never another
    kind of tag of any name. *)
Lemma tags_apart n m :
  (WAIT n = WAIT m -> n = m) /\
  (SUCCESS n = SUCCESS m -> n = m) /\
  (FAIL n = FAIL m -> n = m) /\
  WAIT n <> SUCCESS m /\ WAIT n <> FAIL m /\
  SUCCESS n <> WAIT m /\ SUCCESS n <> FAIL m /\
  FAIL n <> WAIT m /\ FAIL n <> SUCCESS m.
Proof.
  unfold WAIT, SUCCESS, FAIL; simpl.
  repeat split; try discriminate; now intros [= ->].
Qed.

(** A name is none of its own tags. *)
Lemma name_is_no_tag n : n <> WAIT n /\ n <> SUCCESS n /\ n <> FAIL n.
Proof.
  unfold WAIT, SUCCESS, FAIL.
  repeat split; intros H; apply (f_equal String.length) in H; simpl in H; lia.
Qed.

(** X7: the reducer of an asynchronous action keeps to its own three tags.
    On an action whose type is a lifecycle tag of another name, or the plain
    name of the action itself, it returns the state and calls no handler. *)
Theorem async_reducer_ignores_foreign_tags name o r :
  buildReducer apply_fn name o = Ok r ->
  truthy (async o) = true ->
  forall other state action ty w,
    get_prop action "type" = Ok ty ->
    (other <> name /\ In ty (tags_of other)) \/ ty = VStr name ->
    r state action w = (Ok (default_param state (initialState o)), w).
Proof.
  intros Hb Ha other state action ty w Hty Hcase.
  destruct (buildReducer_async World apply_fn name o r Hb Ha) as [-> _].
  assert (Hno : ty <> VStr (WAIT name) /\ ty <> VStr (SUCCESS name) /\
                ty <> VStr (FAIL name)).
  { destruct Hcase as [[Hne Hin] | ->].
    - destruct (tags_apart other name)
        as (Iw & Is & If & N1 & N2 & N3 & N4 & N5 & N6).
      simpl in Hin. destruct Hin as [<- | [<- | [<- | []]]];
        repeat split; intros [= E]; auto.
    - destruct (name_is_no_tag name) as (N1 & N2 & N3).
      repeat split; intros [= E]; auto. }
  destruct Hno as (N1 & N2 & N3).
  apply strict_eq_string_false in N1, N2, N3.
  unfold asyncReducer, bind, lift. now rewrite Hty, N1, N2, N3.
Qed.

(** X9: a registration whose [async] is set never looks at [handler]: it
    behaves as the same registration without [handler], and the reducer it
    builds is the asynchronous one over [handlers]. *)
Theorem handler_ignored_when_async name o :
  truthy (async o) = true ->
  buildReducer apply_fn name o = buildReducer apply_fn name (drop_handler o) /\
  (forall reg,
     createAction apply_fn mergeReducer name o reg =
     createAction apply_fn mergeReducer name (drop_handler o) reg) /\
  (forall r, buildReducer apply_fn name o = Ok r ->
             r = asyncReducer apply_fn name (handlers o) (initialState o)).
Proof.
  intros Ha.
  assert (Hsame : buildReducer apply_fn name o
                  = buildReducer apply_fn name (drop_handler o)).
  { unfold buildReducer, drop_handler; simpl. rewrite Ha.
    destruct (truthy (initialState o)); simpl; [|reflexivity].
    destruct (truthy (storeKey o)); simpl; [|reflexivity].
    destruct (truthy (handlers o)); reflexivity. }
  split; [exact Hsame|]. split.
  - intros reg. unfold createAction. now rewrite <- Hsame.
  - intros r Hb. now destruct (buildReducer_async World apply_fn name o r Hb Ha).
Qed.

(** ** Batches *)

(** X8: in a batch, an entry whose [handlers] is truthy is asynchronous
    whatever its [async] flag says, [async: false] included: the resolved
    flag is truthy, and the reducer registered for the entry is the
    asynchronous one over those handlers. *)
Theorem batch_handlers_force_async gi gk v o a hs :
  entryOptions gi gk v = Ok o ->
  get_prop v "async" = Ok a ->
  get_prop v "handlers" = Ok hs ->
  truthy hs = true ->
  truthy (async o) = true /\
  (truthy a = false -> async o = VBool true) /\
  handlers o = hs /\
  forall name r,
    buildReducer apply_fn name o = Ok r ->
    r = asyncReducer apply_fn name hs (initialState o).
Proof.
  intros Ho Ha Hhs Ht. unfold entryOptions in Ho. rewrite Ha, Hhs in Ho.
  destruct (get_prop v "initialState"); [|discriminate].
  destruct (get_prop v "storeKey"); [|discriminate].
  destruct (get_prop v "action"); [|discriminate].
  destruct (get_prop v "handler"); [|discriminate].
  injection Ho as <-. simpl.
  assert (Hasync : truthy (js_or a (VBool (truthy hs))) = true).
  { unfold js_or. destruct (truthy a) eqn:E; [exact E | exact Ht]. }
  split; [exact Hasync|]. split; [|split; [reflexivity|]].
  - intros Hf. unfold js_or. now rewrite Hf, Ht.
  - intros name r Hb.
    now destruct (buildReducer_async World apply_fn name _ r Hb Hasync).
Qed.

Lemma reduce_app {S A B : Type} (f : B -> A -> M S B) l1 l2 acc s :
  reduce f (l1 ++ l2) acc s =
  match reduce f l1 acc s with
  | (Ok acc', s') => reduce f l2 acc' s'
  | (Throw e, s') => (Throw e, s')
  end.
Proof.
  revert acc s. induction l1 as [|a t IH]; intros acc s; simpl.
  - reflexivity.
  - unfold bind. destruct (f acc a s) as [[acc'|e] s']; [apply IH | reflexivity].
Qed.

(** X10: a batch is registered entry by entry and stops at the first entry
    that fails.  When the entries before [k] register and leave the registry
    as [reg1], and the entry [k] is [null] or [undefined] or is rejected by a
    guard of [createAction], the batch raises that entry's error and the
    registry stays [reg1]: what the earlier entries merged is kept, no creator
    is returned, and the entries after [k] are not looked at. *)
Theorem createActions_stops_at_first_failure options pre k v post reg res1 reg1 :
  object_entries (actions options) = Ok (pre ++ (k, v) :: post) ->
  registerEntries apply_fn mergeReducer
    (globalInitialState options) (globalStoreKey options) pre reg = (Ok res1, reg1) ->
  (v = VUndefined \/ v = VNull ->
   createActions apply_fn mergeReducer options reg = (Throw TypeError, reg1)) /\
  (forall o e,
     entryOptions (globalInitialState options) (globalStoreKey options) v = Ok o ->
     buildReducer apply_fn k o = Throw e ->
     createActions apply_fn mergeReducer options reg = (Throw e, reg1)).
Proof.
  intros He Hpre. unfold registerEntries in Hpre.
  pose proof (createActions_run World apply_fn Registry mergeReducer
                options _ reg He) as Hrun.
  rewrite reduce_app, Hpre in Hrun. simpl in Hrun.
  unfold bind at 1 in Hrun. unfold registerEntry at 1 in Hrun.
  unfold bind at 1 in Hrun. unfold lift at 1 in Hrun.
  split.
  - intros Hnull. rewrite Hrun.
    unfold entryOptions. now rewrite (get_prop_nullish v "async" Hnull).
  - intros o e Ho Hb. rewrite Hrun, Ho. unfold bind at 1.
    now rewrite createAction_throw with (e := e) by exact Hb.
Qed.

Lemma buildReducer_error_is_not_no_actions name o e :
  buildReducer apply_fn name o = Throw e -> e <> no_actions_error.
Proof.
  unfold buildReducer.
  destruct (truthy (initialState o)); simpl; [|intros [= <-]; discriminate].
  destruct (truthy (storeKey o)); simpl; [|intros [= <-]; discriminate].
  destruct (truthy (async o)); simpl.
  - destruct (truthy (handlers o)); simpl; [|intros [= <-]; discriminate].
    destruct (checkAsyncHandlers (handlers o)) as [u|e'] eqn:Hc; [discriminate|].
    intros [= <-]. apply checkAsyncHandlers_error in Hc.
    destruct Hc as [-> | [which ->]]; discriminate.
  - destruct (negb _); [intros [= <-]|]; discriminate.
Qed.

Lemma entryOptions_error gi gk v e : entryOptions gi gk v = Throw e -> e = TypeError.
Proof.
  unfold entryOptions.
  repeat match goal with
         | |- context [match get_prop v ?k with _ => _ end] =>
             destruct (get_prop v k); [|now intros [= <-]]
         end.
  discriminate.
Qed.

(** X11: the error "No any action passed" cannot come out of
    [createActions].  On a [null] or [undefined] [actions] the call raises a
    [TypeError] and leaves the registry as it was; on any other value, empty
    ones included, it goes through the entries, and unless the registry
    itself raises that error nothing does. *)
Theorem no_actions_error_is_never_raised options reg :
  (actions options = VUndefined \/ actions options = VNull ->
   createActions apply_fn mergeReducer options reg = (Throw TypeError, reg)) /\
  ((forall key r reg0 reg1, mergeReducer key r reg0 <> (Throw no_actions_error, reg1)) ->
   forall reg', createActions apply_fn mergeReducer options reg
                <> (Throw no_actions_error, reg')).
Proof.
  split.
  - intros [H | H]; unfold createActions, bind, lift, object_keys; now rewrite H.
  - intros Hmerge reg'.
    destruct (object_entries (actions options)) as [entries|e] eqn:He.
    + rewrite (createActions_run World apply_fn Registry mergeReducer
                 options entries reg He).
      assert (Hred : forall acc reg0,
                reduce (registerEntry apply_fn mergeReducer
                          (globalInitialState options) (globalStoreKey options))
                       entries acc reg0
                <> (Throw no_actions_error, reg')).
      { clear He. induction entries as [|[k v] t IH]; intros acc reg0; simpl.
        - discriminate.
        - unfold bind at 1. unfold registerEntry at 1.
          unfold bind at 1. unfold lift at 1.
          destruct (entryOptions (globalInitialState options)
                                 (globalStoreKey options) v) as [o|e] eqn:Ho.
          + unfold bind at 1.
            destruct (createAction apply_fn mergeReducer k o reg0)
              as [[c|e] reg1] eqn:Hc.
            * destruct (Props.put k c acc); [apply IH | discriminate].
            * intros [= -> ->].
              unfold createAction, bind, lift in Hc.
              destruct (buildReducer apply_fn k o) as [r|e] eqn:Hb.
              -- destruct (mergeReducer (storeKey o) r reg0) as [[u|e] reg2] eqn:Hm;
                   [discriminate|].
                 injection Hc as -> ->. now apply (Hmerge _ _ _ _ Hm).
              -- injection Hc as -> ->.
                 now apply (buildReducer_error_is_not_no_actions k o _ Hb).
          + apply entryOptions_error in Ho. subst e. discriminate. }
      specialize (Hred (Props.empty_object (creator World)) reg).
      destruct (reduce _ entries _ reg) as [[res|e] reg1]; [discriminate|].
      intros [= -> ->]. now apply Hred.
    + unfold createActions, bind, lift, object_keys.
      unfold object_entries in He. rewrite He.
      destruct (actions options); simpl in He; try discriminate;
        injection He as <-; discriminate.
Qed.

(** ** The shape of the action objects *)

(** Properties with fresh names are appended in their order. *)
Lemma assign_fresh {A : Type} (dst src : list (string * A)) :
  NoDup (Props.keys src) ->
  (forall k, In k (Props.keys src) -> ~ In k (Props.keys dst)) ->
  Props.assign dst src = dst ++ src.
Proof.
  unfold Props.assign. revert dst.
  induction src as [|[k v] t IH]; intros dst Hnd Hfresh; simpl.
  - now rewrite app_nil_r.
  - inversion Hnd as [|? ? Hnotin Hnd']; subst.
    rewrite PropsFacts.set_fresh by (apply Hfresh; simpl; auto).
    rewrite IH; auto.
    + now rewrite <- app_assoc.
    + intros k' Hin. unfold Props.keys. rewrite map_app, in_app_iff. simpl.
      intros [Hd | [<- | []]]; [|auto].
      apply (Hfresh k'); simpl; auto.
Qed.

Lemma payload_has_no (own : list (string * value)) k :
  existsb (String.eqb k) ["promise"; "type"] = true ->
  ~ In k (Props.keys (Props.without ["promise"; "type"] own)).
Proof.
  intros H. apply PropsFacts.lookup_none.
  now rewrite PropsFacts.lookup_without, H.
Qed.

(** Enumeration leaves a list without array indices as it is. *)
Lemma enumerate_named {A : Type} (l : list (string * A)) :
  Forall (fun k => Props.array_index k = None) (Props.keys l) ->
  Props.enumerate l = l.
Proof.
  intros H. unfold Props.enumerate.
  assert (Hi : Props.indexed l = []).
  { induction l as [|kv t IH]; simpl; auto.
    inversion H as [|? ? Hk Ht]; subst. rewrite Hk. auto. }
  assert (Hn : Props.named l = l).
  { unfold Props.named. induction l as [|kv t IH]; simpl; auto.
    inversion H as [|? ? Hk Ht]; subst. rewrite Hk.
    simpl in Hi. rewrite Hk in Hi. now rewrite IH. }
  now rewrite Hi, Hn.
Qed.

Lemma without_named {A : Type} (ex : list string) (l : list (string * A)) :
  Forall (fun k => Props.array_index k = None) (Props.keys l) ->
  Forall (fun k => Props.array_index k = None) (Props.keys (Props.without ex l)).
Proof.
  unfold Props.without. induction l as [|kv t IH]; intros H; simpl; auto.
  inversion H as [|? ? Hk Ht]; subst.
  destruct (negb _); simpl; auto.
Qed.

(** X12: the order of the keys of an action object.  A synchronous creator
    returns [type], then the payload properties in the order the builder's
    value enumerates them.  An asynchronous creator whose payload has no
    [types] of its own returns [types], then [promise], then the payload
    properties in that order.  This is the order in which the properties are
    created; when no payload key is an array index it is also the order in
    which the action object enumerates them. *)
Theorem creator_keeps_payload_order name asyncFlag builder args w built own promise w' :
  apply_fn builder VUndefined args w = (Ok built, w') ->
  own_props built = Ok own ->
  NoDup (Props.keys own) ->
  get_prop built "promise" = Ok promise ->
  let payload := Props.without ["promise"; "type"] own in
  let sync_action := ("type", VStr name) :: payload in
  let async_action := ("types", lifecycle_tags name) :: ("promise", promise) :: payload in
  (truthy asyncFlag = false ->
   actionCreator apply_fn name asyncFlag (VFun builder) args w
   = (Ok (VObj sync_action), w')) /\
  (truthy asyncFlag = true -> isFunction promise = true ->
   Props.lookup "types" own = None ->
   actionCreator apply_fn name asyncFlag (VFun builder) args w
   = (Ok (VObj async_action), w')) /\
  (Forall (fun k => Props.array_index k = None) (Props.keys own) ->
   own_props (VObj sync_action) = Ok sync_action /\
   own_props (VObj async_action) = Ok async_action).
Proof.
  intros Hcall Hown Hnd Hp payload sync_action async_action.
  pose proof (PropsFacts.NoDup_without _ ["promise"; "type"] _ Hnd) as Hnd'.
  rewrite (actionCreator_run World apply_fn name asyncFlag builder args w
             built own promise w' Hcall Hown Hp).
  split; [|split].
  - intros ->. rewrite assign_fresh; [reflexivity | exact Hnd' |].
    intros k Hin [<- | []]. revert Hin. now apply payload_has_no.
  - intros -> ->. intros Hty. simpl negb. cbv iota.
    rewrite assign_fresh; [reflexivity | exact Hnd' |].
    intros k Hin [<- | [<- | []]]; revert Hin.
    + apply PropsFacts.lookup_none.
      now rewrite PropsFacts.lookup_without.
    + now apply payload_has_no.
  - intros Hnamed.
    pose proof (without_named ["promise"; "type"] own Hnamed) as Hpayload.
    split; simpl; f_equal; apply enumerate_named; simpl;
      repeat (constructor; [reflexivity|]); exact Hpayload.
Qed.

(** ** Growing a batch *)

(** X13: adding an entry at the end of a batch changes nothing for the
    entries before it, as long as no entry is named [__proto__].  When the
    entries [pre] register with result [res1] and registry [reg1], and a last
    entry [k] passes the guards and its merge succeeds, the batch returns the
    properties of [res1] followed by the creator of [k], and the registry is
    [reg1] after that one merge under the store key resolved for [k]. *)
Theorem batch_extends_by_one_entry options pre k v reg res1 reg1 o r reg2 :
  object_entries (actions options) = Ok (pre ++ [(k, v)]) ->
  NoDup (Props.keys (pre ++ [(k, v)])) ->
  ~ In "__proto__" (Props.keys (pre ++ [(k, v)])) ->
  registerEntries apply_fn mergeReducer
    (globalInitialState options) (globalStoreKey options) pre reg = (Ok res1, reg1) ->
  entryOptions (globalInitialState options) (globalStoreKey options) v = Ok o ->
  buildReducer apply_fn k o = Ok r ->
  mergeReducer (storeKey o) r reg1 = (Ok tt, reg2) ->
  createActions apply_fn mergeReducer options reg =
  (Ok (Props.own_of res1 ++ [(k, actionCreator apply_fn k (async o) (action o))]),
   reg2).
Proof.
  intros He Hnd Hproto Hpre Ho Hb Hm.
  unfold Props.keys in Hnd, Hproto. rewrite map_app in Hnd, Hproto.
  simpl in Hnd, Hproto.
  pose proof (NoDup_remove_1 _ _ _ Hnd) as Hnd1.
  pose proof (NoDup_remove_2 _ _ _ Hnd) as Hk.
  rewrite app_nil_r in Hnd1, Hk.
  rewrite in_app_iff in Hproto. simpl in Hproto.
  unfold registerEntries in Hpre.
  assert (Hres1 : Props.function_prototype res1 = false /\
                  Props.keys (Props.own_of res1) = Props.keys pre).
  { pose proof Hpre as Hpre'.
    apply (reduce_entries World apply_fn Registry mergeReducer) in Hpre';
      [| exact Hnd1 | tauto | reflexivity | intros ? _ []].
    destruct Hpre' as (created & Hown & Hp & HF). simpl in Hown.
    split; [exact Hp|]. rewrite Hown.
    now apply Forall2_creator_keys in HF. }
  destruct Hres1 as [Hp Hkeys].
  rewrite (createActions_run World apply_fn Registry mergeReducer options _ reg He).
  rewrite reduce_app, Hpre. simpl.
  unfold bind at 1. unfold bind at 1. unfold lift at 1. rewrite Ho.
  unfold bind at 1. rewrite createAction_ok with (r := r) by exact Hb. rewrite Hm.
  rewrite put_fresh; [reflexivity | intros ->; tauto | exact Hp |].
  unfold Props.keys in Hkeys |- *. now rewrite Hkeys.
Qed.

(** X14: a batch entry that has no usable value of its own and finds none in
    the defaults is rejected.  With a falsy [initialState] in both places the
    entry raises the initial-state error; otherwise, with a falsy [storeKey]
    in both places, it raises the store-key error, which names the entry. *)
Theorem batch_entry_without_defaults gi gk v o i s name :
  entryOptions gi gk v = Ok o ->
  get_prop v "initialState" = Ok i ->
  get_prop v "storeKey" = Ok s ->
  (truthy i = false -> truthy gi = false ->
   forall reg,
     createAction apply_fn mergeReducer name o reg = (Throw initial_state_error, reg)) /\
  (truthy (js_or i gi) = true -> truthy s = false -> truthy gk = false ->
   forall reg,
     createAction apply_fn mergeReducer name o reg = (Throw (store_key_error name), reg)).
Proof.
  intros Ho Hi Hs. unfold entryOptions in Ho. rewrite Hi, Hs in Ho.
  destruct (get_prop v "async"); [|discriminate].
  destruct (get_prop v "action"); [|discriminate].
  destruct (get_prop v "handler"); [|discriminate].
  destruct (get_prop v "handlers"); [|discriminate].
  injection Ho as <-. split.
  - intros Hfi Hfg reg. apply createAction_throw.
    unfold buildReducer; simpl. unfold js_or at 1. now rewrite Hfi, Hfg.
  - intros Hinit Hfs Hfg reg. apply createAction_throw.
    unfold buildReducer; simpl. rewrite Hinit. simpl.
    unfold js_or at 1. now rewrite Hfs, Hfg.
Qed.

End FurtherFacts.

(** ** The further properties at work in the concrete world *)

Lemma checkAsyncHandlers_decides_witness :
  checkAsyncHandlers Demo.three_handlers = Ok tt /\
  checkAsyncHandlers Scenarios.two_bad_handlers = Throw (Error (errMessage "onWait")).
Proof.
  split.
  - apply (proj1 (checkAsyncHandlers_decides Demo.three_handlers
                    (VFun 4) (VFun 5) (VFun 6) eq_refl eq_refl eq_refl)).
    repeat split.
  - apply (proj1 (proj2 (checkAsyncHandlers_decides Scenarios.two_bad_handlers
                           (VNum 5) (VFun 5) VNull eq_refl eq_refl eq_refl))).
    reflexivity.
Defined.

Lemma registration_decided_by_valid_options_witness :
  valid_options Demo.async_options = true /\
  valid_options Scenarios.async_with_handler = true /\
  valid_options (drop_handlers Demo.async_options) = false /\
  (exists r, buildReducer Demo.apply_fn "load" Demo.async_options = Ok r) /\
  (exists message,
     createAction Demo.apply_fn Demo.mergeReducer "load"
       (drop_handlers Demo.async_options) []
     = (Throw (Error message), [])).
Proof.
  split; [reflexivity|]. split; [reflexivity|]. split; [reflexivity|]. split.
  - destruct (proj1 (registration_decided_by_valid_options
                       Demo.world Demo.apply_fn Demo.registry Demo.mergeReducer
                       "load" Demo.async_options) eq_refl) as (r & Hr & _).
    exists r. exact Hr.
  - destruct (proj2 (registration_decided_by_valid_options
                       Demo.world Demo.apply_fn Demo.registry Demo.mergeReducer
                       "load" (drop_handlers Demo.async_options)) eq_refl)
      as (message & _ & Hm).
    exists message. exact (Hm []).
Defined.

Lemma action_is_checked_at_call_time_witness :
  isFunction VUndefined = false /\
  (exists reg',
     createAction Demo.apply_fn Demo.mergeReducer "inc"
       (with_action VUndefined Demo.sync_options) []
     = (Ok (actionCreator Demo.apply_fn "inc" VUndefined VUndefined), reg')) /\
  actionCreator Demo.apply_fn "inc" VUndefined VUndefined [VStr "seven"] []
  = (Throw TypeError, []).
Proof.
  split; [reflexivity|].
  destruct (action_is_checked_at_call_time
              Demo.world Demo.apply_fn Demo.registry Demo.mergeReducer
              "inc" Demo.sync_options VUndefined) as [Hreg Hcall].
  split.
  - eexists. rewrite Hreg. reflexivity.
  - exact (Hcall eq_refl eq_refl [VStr "seven"] []).
Defined.

Lemma creator_needs_an_object_witness :
  Demo.apply_fn 7 VUndefined [] [] = (Ok VUndefined, [7]) /\
  actionCreator Demo.apply_fn "load" (VBool true) (VFun 7) [] []
  = (Throw TypeError, [7]).
Proof.
  split; [reflexivity|].
  apply (proj2 (creator_needs_an_object Demo.world Demo.apply_fn
                  "load" (VBool true) 7 [] [] [7]) VUndefined eq_refl).
  left; reflexivity.
Defined.

Lemma reducers_need_an_action_witness :
  let r := syncReducer Demo.apply_fn "inc" (VFun 3) Demo.state0 in
  buildReducer Demo.apply_fn "inc" Demo.sync_options = Ok r /\
  r Demo.state0 VNull [] = (Throw TypeError, []).
Proof.
  intros r. split; [reflexivity|].
  apply (reducers_need_an_action Demo.world Demo.apply_fn
           "inc" Demo.sync_options r eq_refl).
  right; reflexivity.
Defined.

Lemma undefined_state_is_initial_state_witness :
  let r := asyncReducer Demo.apply_fn "load" Demo.three_handlers Demo.state0 in
  let action := VObj [("type", VStr "FAIL@load")] in
  buildReducer Demo.apply_fn "load" Demo.async_options = Ok r /\
  r VUndefined action [] = r Demo.state0 action [].
Proof.
  intros r action. split; [reflexivity|].
  apply (undefined_state_is_initial_state Demo.world Demo.apply_fn
           "load" Demo.async_options r eq_refl).
Defined.

Lemma async_reducer_ignores_foreign_tags_witness :
  let r := asyncReducer Demo.apply_fn "load" Demo.three_handlers Demo.state0 in
  buildReducer Demo.apply_fn "load" Demo.async_options = Ok r /\
  r VUndefined (VObj [("type", VStr "WAIT@save")]) [] = (Ok Demo.state0, []) /\
  r VUndefined (VObj [("type", VStr "load")]) [] = (Ok Demo.state0, []).
Proof.
  intros r. split; [reflexivity|]. split.
  - apply (async_reducer_ignores_foreign_tags Demo.world Demo.apply_fn
             "load" Demo.async_options r eq_refl eq_refl
             "save" VUndefined (VObj [("type", VStr "WAIT@save")])
             (VStr "WAIT@save") [] eq_refl).
    left. split; [discriminate | left; reflexivity].
  - apply (async_reducer_ignores_foreign_tags Demo.world Demo.apply_fn
             "load" Demo.async_options r eq_refl eq_refl
             "load" VUndefined (VObj [("type", VStr "load")])
             (VStr "load") [] eq_refl).
    right; reflexivity.
Defined.

Lemma handler_ignored_when_async_witness :
  truthy (async Scenarios.async_with_handler) = true /\
  isFunction (handler Scenarios.async_with_handler) = false /\
  buildReducer Demo.apply_fn "load" Scenarios.async_with_handler
  = buildReducer Demo.apply_fn "load" (drop_handler Scenarios.async_with_handler).
Proof.
  split; [reflexivity|]. split; [reflexivity|].
  exact (proj1 (handler_ignored_when_async Demo.world Demo.apply_fn
                  Demo.registry Demo.mergeReducer
                  "load" Scenarios.async_with_handler eq_refl)).
Defined.

Lemma batch_handlers_force_async_witness :
  exists o,
    entryOptions Demo.state0 (VStr "K") Scenarios.contradictory_entry = Ok o /\
    get_prop Scenarios.contradictory_entry "async" = Ok (VBool false) /\
    async o = VBool true /\
    buildReducer Demo.apply_fn "load" o
    = Ok (asyncReducer Demo.apply_fn "load" Demo.three_handlers Demo.state0).
Proof.
  eexists. split; [reflexivity|]. split; [reflexivity|].
  destruct (batch_handlers_force_async Demo.world Demo.apply_fn
              Demo.state0 (VStr "K") Scenarios.contradictory_entry _
              (VBool false) Demo.three_handlers eq_refl eq_refl eq_refl eq_refl)
    as (_ & Hflag & _ & _).
  split; [exact (Hflag eq_refl) | reflexivity].
Defined.

Lemma createActions_stops_at_first_failure_witness :
  exists reg1,
    createActions Demo.apply_fn Demo.mergeReducer Scenarios.broken_batch []
    = (Throw (sync_handler_error "b"), reg1) /\
    Demo.merged_keys reg1 = [VStr "K"].
Proof.
  eexists. split.
  - eapply (proj2 (createActions_stops_at_first_failure
                     Demo.world Demo.apply_fn Demo.registry Demo.mergeReducer
                     Scenarios.broken_batch
                     [("a", VObj [("action", VFun 0); ("handler", VFun 3)])]
                     "b" (VObj [("action", VFun 0)])
                     [("c", VObj [("action", VFun 0); ("handler", VFun 3)])]
                     [] _ _ eq_refl eq_refl));
      reflexivity.
  - reflexivity.
Defined.

Lemma no_actions_error_is_never_raised_witness :
  createActions Demo.apply_fn Demo.mergeReducer
    {| actions := VObj []; globalInitialState := Demo.state0;
       globalStoreKey := VStr "K" |} []
  <> (Throw no_actions_error, []).
Proof.
  apply (proj2 (no_actions_error_is_never_raised
                  Demo.world Demo.apply_fn Demo.registry Demo.mergeReducer
                  {| actions := VObj []; globalInitialState := Demo.state0;
                     globalStoreKey := VStr "K" |} [])).
  intros key r reg0 reg1. unfold Demo.mergeReducer. discriminate.
Defined.

Lemma creator_keeps_payload_order_witness :
  actionCreator Demo.apply_fn "inc" VUndefined (VFun 0) [VStr "seven"] []
  = (Ok (VObj [("type", VStr "inc"); ("id", VStr "seven")]), [0]) /\
  actionCreator Demo.apply_fn "load" (VBool true) (VFun 1) [VStr "seven"] []
  = (Ok (VObj [("types", lifecycle_tags "load"); ("promise", VFun 9);
               ("id", VStr "seven")]), [1]).
Proof.
  split.
  - apply (proj1 (creator_keeps_payload_order Demo.world Demo.apply_fn
                    "inc" VUndefined 0 [VStr "seven"] []
                    (VObj [("type", VStr "mine"); ("id", VStr "seven")])
                    [("type", VStr "mine"); ("id", VStr "seven")] VUndefined [0]
                    eq_refl eq_refl ltac:(distinct_keys) eq_refl)).
    reflexivity.
  - apply (proj1 (proj2 (creator_keeps_payload_order Demo.world Demo.apply_fn
                    "load" (VBool true) 1 [VStr "seven"] []
                    (VObj [("promise", VFun 9); ("type", VStr "mine");
                           ("id", VStr "seven")])
                    [("promise", VFun 9); ("type", VStr "mine"); ("id", VStr "seven")]
                    (VFun 9) [1]
                    eq_refl eq_refl ltac:(distinct_keys) eq_refl)));
      reflexivity.
Defined.

Lemma batch_extends_by_one_entry_witness :
  exists res reg2,
    createActions Demo.apply_fn Demo.mergeReducer Demo.batch [] = (Ok res, reg2) /\
    Props.keys res = ["a"; "b"] /\
    Demo.merged_keys reg2 = [VStr "K"; VStr "B"].
Proof.
  eexists. eexists. split.
  - eapply (batch_extends_by_one_entry
              Demo.world Demo.apply_fn Demo.registry Demo.mergeReducer
              Demo.batch
              [("a", VObj [("action", VFun 0); ("handler", VFun 3)])]
              "b" (VObj [("action", VFun 1); ("handlers", Demo.three_handlers);
                         ("storeKey", VStr "B")])
              [] _ _ _ _ _ eq_refl);
      [distinct_keys | simpl; intuition discriminate
       | reflexivity | reflexivity | reflexivity | reflexivity].
  - split; reflexivity.
Defined.

Lemma batch_entry_without_defaults_witness :
  exists o,
    entryOptions Demo.state0 VUndefined
      (VObj [("action", VFun 0); ("handler", VFun 3)]) = Ok o /\
    createAction Demo.apply_fn Demo.mergeReducer "inc" o []
    = (Throw (store_key_error "inc"), []).
Proof.
  eexists. split; [reflexivity|].
  apply (proj2 (batch_entry_without_defaults
                  Demo.world Demo.apply_fn Demo.registry Demo.mergeReducer
                  Demo.state0 VUndefined
                  (VObj [("action", VFun 0); ("handler", VFun 3)]) _
                  VUndefined VUndefined "inc" eq_refl eq_refl eq_refl));
    reflexivity.
Defined.
